(** * pyarchertools: the DOCX cover merger of [app.py]

    A shallow embedding of the request handler [merge_docx], of the merge
    pipeline [merge_documents_properly] and of [cleanup_files], together
    with the library calls they rely on (Python [str] methods, werkzeug's
    [secure_filename] and multipart file storage, python-docx documents,
    docxcompose's [Composer], the file system and the wall clock). *)

From Stdlib Require Import Ascii String.
From stdpp Require Import gmap strings list fin_maps.

(** ** Python [str] methods used by [app.py] *)

Module Py.

(** [s.lower()] on ASCII text: only [A]..[Z] change. *)
Definition lower_char (c : ascii) : ascii :=
  let n := nat_of_ascii c in
  if (65 <=? n)%nat && (n <=? 90)%nat then ascii_of_nat (n + 32) else c.

Fixpoint lower (s : string) : string :=
  match s with
  | EmptyString => EmptyString
  | String c s' => String (lower_char c) (lower s')
  end.

(** [bool(s)]: a string is truthy when it is not empty. *)
Definition truthy (s : string) : bool :=
  match s with
  | EmptyString => false
  | String _ _ => true
  end.

(** [s.startswith(p)]. *)
Fixpoint startswith (s p : string) : bool :=
  match p, s with
  | EmptyString, _ => true
  | String a p', String b s' => if decide (a = b) then startswith s' p' else false
  | String _ _, EmptyString => false
  end.

(** [s.endswith(suf)]: some tail of [s] is [suf]. *)
Fixpoint endswith (s suf : string) : bool :=
  if decide (s = suf) then true
  else match s with
       | EmptyString => false
       | String _ s' => endswith s' suf
       end.

(** [s.rfind(sep)]: the start of the rightmost occurrence of [sep]. *)
Fixpoint rfind (s sep : string) : option nat :=
  match s with
  | EmptyString => if startswith s sep then Some 0 else None
  | String _ s' =>
      match rfind s' sep with
      | Some i => Some (S i)
      | None => if startswith s sep then Some 0 else None
      end
  end.

(** [s[:n]]. *)
Fixpoint take (n : nat) (s : string) : string :=
  match n, s with
  | S n', String c s' => String c (take n' s')
  | _, _ => EmptyString
  end.

(** [s.rsplit(sep, 1)[0]]: what precedes the rightmost [sep], or all of
    [s] when [sep] does not occur. *)
Definition rsplit1_head (s sep : string) : string :=
  match rfind s sep with
  | Some i => take i s
  | None => s
  end.

(** [str.isspace] on ASCII: the characters [s.split()] splits on. *)
Definition isspace (c : ascii) : bool :=
  let n := nat_of_ascii c in
  ((9 <=? n)%nat && (n <=? 13)%nat) || ((28 <=? n)%nat && (n <=? 32)%nat).

(** [s.split()]: the maximal runs of non-space characters. *)
Fixpoint split_ws (cur : list ascii) (s : list ascii) : list (list ascii) :=
  match s with
  | [] => if cur is [] then [] else [reverse cur]
  | c :: s' =>
      if isspace c
      then (if cur is [] then split_ws [] s' else reverse cur :: split_ws [] s')
      else split_ws (c :: cur) s'
  end.

(** [sep.join(parts)]. *)
Fixpoint join (sep : list ascii) (parts : list (list ascii)) : list ascii :=
  match parts with
  | [] => []
  | [p] => p
  | p :: rest => p ++ sep ++ join sep rest
  end.

(** [s.lstrip(chars)] and [s.strip(chars)] for a set of characters. *)
Fixpoint lstrip (drop : ascii -> bool) (s : list ascii) : list ascii :=
  match s with
  | c :: s' => if drop c then lstrip drop s' else s
  | [] => []
  end.

Definition strip (drop : ascii -> bool) (s : list ascii) : list ascii :=
  reverse (lstrip drop (reverse (lstrip drop s))).

End Py.

(** ** werkzeug.utils.secure_filename

    The library function on a POSIX host ([os.sep] is [/], no
    [os.path.altsep]) for ASCII file names. Strings are sequences of
    bytes here, so a character outside ASCII is dropped at the
    [encode("ascii", "ignore")] step, where the library first folds it by
    NFKD normalisation (an accented letter keeps its base letter there and
    loses it here). What the statements below use of this function holds
    of both: the result is made of the characters that the final filter
    keeps. *)

Module Werkzeug.

Definition is_ascii (c : ascii) : bool := (nat_of_ascii c <? 128)%nat.

(** The complement of [_filename_ascii_strip_re = [^A-Za-z0-9_.-]]. *)
Definition filename_char (c : ascii) : bool :=
  let n := nat_of_ascii c in
  ((65 <=? n)%nat && (n <=? 90)%nat) || ((97 <=? n)%nat && (n <=? 122)%nat)
  || ((48 <=? n)%nat && (n <=? 57)%nat)
  || bool_decide (c = "_"%char) || bool_decide (c = "."%char) || bool_decide (c = "-"%char).

Definition dot_or_underscore (c : ascii) : bool :=
  bool_decide (c = "."%char) || bool_decide (c = "_"%char).

Definition secure_filename (filename : string) : string :=
  let ascii_only := filter (fun c => is_ascii c = true) (list_ascii_of_string filename) in
  let no_sep := map (fun c => if decide (c = "/"%char) then " "%char else c) ascii_only in
  let joined := Py.join ["_"%char] (Py.split_ws [] no_sep) in
  let kept := filter (fun c => filename_char c = true) joined in
  string_of_list_ascii (Py.strip dot_or_underscore kept).

End Werkzeug.

Import Werkzeug.

(** ** [allowed_file] and the output name (app.py lines 32-33 and 68) *)

Definition allowed_file (filename : string) : bool :=
  Py.truthy filename && Py.endswith (Py.lower filename) ".docx".

(** [secure_filename(cf.filename).rsplit('.docx', 1)[0] + '_with_cover.docx'] *)
Definition out_basename (filename : string) : string :=
  Py.rsplit1_head (secure_filename filename) ".docx" +:+ "_with_cover.docx".

(** ** The wall clock: [datetime.now().strftime('%Y%m%d%H%M%S%f')] *)

Record datetime := Datetime {
  year : nat; month : nat; day : nat;
  hour : nat; minute : nat; second : nat; microsecond : nat
}.

Definition digit (n : nat) : ascii := ascii_of_nat (48 + n mod 10).

(** [n] in decimal on exactly [w] digits, zero padded (the [%0wd] of the
    strftime fields). *)
Fixpoint zfill (w n : nat) : string :=
  match w with
  | O => ""
  | S w' => zfill w' (n / 10) +:+ String (digit n) ""
  end.

Definition strftime (t : datetime) : string :=
  zfill 4 (year t) +:+ zfill 2 (month t) +:+ zfill 2 (day t) +:+
  zfill 2 (hour t) +:+ zfill 2 (minute t) +:+ zfill 2 (second t) +:+
  zfill 6 (microsecond t).

(** ** [os.path.join] on POSIX, two components *)

Definition path_join (a b : string) : string :=
  if Py.startswith b "/" then b
  else if negb (Py.truthy a) || Py.endswith a "/" then a +:+ b
  else a +:+ "/" +:+ b.

(** [app.config['UPLOAD_FOLDER']] *)
Definition UPLOAD_FOLDER : string := "temp_uploads".

(** ** python-docx documents and docxcompose

    A document body is its sequence of block-level elements; the styles,
    headers, footers and section properties that the composer keeps from
    the base document are carried as one opaque part. Paragraphs and runs
    are handed out by python-docx as proxies onto the document tree:
    here a paragraph proxy is the position of its block in the body, and a
    run proxy adds the position of the run in its paragraph. *)

Module PythonDocx.

Inductive WD_BREAK := LINE | PAGE | COLUMN.

Inductive run_item :=
| Text (t : string)
| Break (b : WD_BREAK).

Definition run := list run_item.
Definition paragraph := list run.

Inductive block :=
| Par (p : paragraph)
| Tbl (xml : string).

Record document := Doc { body : list block; base_parts : string }.

Definition par_proxy := nat.
Definition run_proxy := (nat * nat)%type.

(** [doc.paragraphs]: the top-level paragraphs, in document order. *)
Fixpoint par_positions (i : nat) (bs : list block) : list par_proxy :=
  match bs with
  | [] => []
  | Par _ :: rest => i :: par_positions (S i) rest
  | Tbl _ :: rest => par_positions (S i) rest
  end.

Definition paragraphs (d : document) : list par_proxy :=
  par_positions 0 (body d).

(** [doc.add_paragraph()]: an empty paragraph at the end of the body. *)
Definition add_paragraph (d : document) : document * par_proxy :=
  (Doc (body d ++ [Par []]) (base_parts d), length (body d)).

(** [par.add_run()]: an empty run at the end of the paragraph. *)
Definition add_run (d : document) (p : par_proxy) : document * run_proxy :=
  match body d !! p with
  | Some (Par rs) => (Doc (<[p := Par (rs ++ [[]])]> (body d)) (base_parts d), (p, length rs))
  | _ => (d, (p, 0))
  end.

(** [run.add_break(b)]: a break at the end of the run. *)
Definition add_break (d : document) (r : run_proxy) (b : WD_BREAK) : document :=
  match body d !! r.1 with
  | Some (Par rs) =>
      match rs !! r.2 with
      | Some items => Doc (<[r.1 := Par (<[r.2 := items ++ [Break b]]> rs)]> (body d)) (base_parts d)
      | None => d
      end
  | _ => d
  end.

(** [Composer(base).append(content)]: the body elements of [content]
    are inserted at the end of the base body (before its section
    properties); the base keeps its own styles, headers and footers. *)
Definition Composer_append (base content : document) : document :=
  Doc (body base ++ body content) (base_parts base).

Definition item_breaks (it : run_item) : nat :=
  match it with Break PAGE => 1 | _ => 0 end.

Definition block_breaks (b : block) : nat :=
  match b with
  | Par rs => sum_list_with (sum_list_with item_breaks) rs
  | Tbl _ => 0
  end.

(** Number of page-break markers in the top-level paragraphs. *)
Definition page_breaks (d : document) : nat :=
  sum_list_with block_breaks (body d).

End PythonDocx.

Import PythonDocx.

(** Lines 128-134 of [merge_documents_properly]: select or create the last
    paragraph and append a run holding a page break. *)
Definition add_cover_break (template_doc : document) : document :=
  let '(doc, last_par) :=
    match paragraphs template_doc with
    | [] => add_paragraph template_doc
    | ps => (template_doc, default 0 (last ps))
    end in
  let '(doc, r) := add_run doc last_par in
  add_break doc r PAGE.

(** ** The file system, the environment and the effect monad *)

Inductive Content :=
| Docx (d : document)       (* a well-formed .docx package *)
| Raw (bytes : string).     (* any other bytes *)

Inductive Node :=
| File (c : Content)
| Dir.

(** The disk maps a path, as spelled, to what it holds: [.], [..] and
    links are not resolved, so two spellings of one file are two paths
    here; the handler only builds paths [temp_uploads/<name>] with a
    sanitised name. [written] is a ghost log of every path at which a file
    was created or overwritten, most recent first. *)
Record World := mkWorld {
  fs : gmap string Node;
  ticks : nat;
  written : list string
}.

Inductive io_call :=
| IoWrite (path : string)
| IoRead (path : string)
| IoUnlink (path : string).

(** What the handler cannot control: the reading of the clock at each
    call, the operating-system errors, and whether a failing write leaves a
    truncated file behind. An error is a function of the call alone: the
    same call fails the same way each time within one environment (a
    statement about two runs that may fail differently takes two
    environments). *)
Record Env := mkEnv {
  clock : nat -> datetime;
  fault : io_call -> option string;
  torn : string -> bool
}.

Definition exn := string.

Definition M (S A : Type) : Type := S -> S * (exn + A).

Definition ret {S A} (a : A) : M S A := fun s => (s, inr a).

Definition raise {S A} (e : exn) : M S A := fun s => (s, inl e).

Definition bind {S A B} (m : M S A) (k : A -> M S B) : M S B :=
  fun s =>
    match m s with
    | (s', inr a) => k a s'
    | (s', inl e) => (s', inl e)
    end.

(** [try: m except Exception as e: h e] *)
Definition try_except {S A} (m : M S A) (h : exn -> M S A) : M S A :=
  fun s =>
    match m s with
    | (s', inl e) => h e s'
    | r => r
    end.

Definition gets {S A} (f : S -> A) : M S A := fun s => (s, inr (f s)).

Definition modify {S} (f : S -> S) : M S unit := fun s => (f s, inr tt).

Notation "'let*' x ':=' m 'in' k" := (bind m (fun x => k))
  (at level 10, x name, m at level 100, k at level 200).

Record FileStorage := mkFileStorage { filename : string; stream : Content }.

Record MergeResult := mkMergeResult { m_filename : string; m_path : string }.

Inductive Payload :=
| FileBytes (c : Content)
| ZipBytes (entries : list (string * Content)).

Inductive Response :=
| Json (status : nat) (fields : list (string * string))
| SendFile (data : Payload) (download_name mimetype : string).

Definition status_of (r : Response) : nat :=
  match r with
  | Json st _ => st
  | SendFile _ _ _ => 200
  end.

(** [jsonify({'error': msg}), code] *)
Definition jsonify_error (msg : string) (code : nat) : Response :=
  Json code [("error", msg)].

Definition DOCX_MIME : string :=
  "application/vnd.openxmlformats-officedocument.wordprocessingml.document".

(** [request.files], a multi-dict: the file parts in arrival order. *)
Definition Files := list (string * FileStorage).

Definition contains (key : string) (files : Files) : bool :=
  bool_decide (key ∈ files.*1).

Definition getlist (key : string) (files : Files) : list FileStorage :=
  (filter (fun kv => kv.1 = key) files).*2.

(** [request.files[key]]: the first part of that name. *)
Definition getitem {S} (key : string) (files : Files) : M S FileStorage :=
  match getlist key files with
  | f :: _ => ret f
  | [] => raise "400 Bad Request: The browser (or proxy) sent a request that this server could not understand."
  end.

Record Locals := mkLocals {
  world : World;
  uploaded_paths : list string;
  merged_paths : list MergeResult
}.

Definition lift {A} (m : M World A) : M Locals A :=
  fun s =>
    match m (world s) with
    | (w, r) => (mkLocals w (uploaded_paths s) (merged_paths s), r)
    end.

Section Handler.

Variable E : Env.

Definition datetime_now : M World datetime :=
  fun w => (mkWorld (fs w) (S (ticks w)) (written w), inr (clock E (ticks w))).

(** Storing [c] at [path] ([FileStorage.save], [Composer.save]). *)
Definition write_file (path : string) (c : Content) : M World unit :=
  fun w =>
    match fs w !! path with
    | Some Dir => (w, inl ("[Errno 21] Is a directory: '" +:+ path +:+ "'"))
    | _ =>
        match fault E (IoWrite path) with
        | Some e =>
            if torn E path
            then (mkWorld (<[path := File (Raw "")]> (fs w)) (ticks w) (path :: written w), inl e)
            else (w, inl e)
        | None =>
            (mkWorld (<[path := File c]> (fs w)) (ticks w) (path :: written w), inr tt)
        end
    end.

(** [open(path, 'rb').read()] *)
Definition read_file (path : string) : M World Content :=
  fun w =>
    match fault E (IoRead path) with
    | Some e => (w, inl e)
    | None =>
        match fs w !! path with
        | Some (File c) => (w, inr c)
        | Some Dir => (w, inl ("[Errno 21] Is a directory: '" +:+ path +:+ "'"))
        | None => (w, inl ("[Errno 2] No such file or directory: '" +:+ path +:+ "'"))
        end
    end.

(** [docx.Document(path)] on a file. A directory is given no content in
    this model, so the case of a directory that holds an unpacked package,
    which python-docx can open, is not covered: the statements about
    [Document] and about the merge assume paths that are files or absent,
    as the paths built by the handler are. *)
Definition Document (path : string) : M World document :=
  fun w =>
    match fault E (IoRead path) with
    | Some e => (w, inl e)
    | None =>
        match fs w !! path with
        | Some (File (Docx d)) => (w, inr d)
        | _ => (w, inl ("Package not found at '" +:+ path +:+ "'"))
        end
    end.

Definition FileStorage_save (f : FileStorage) (dst : string) : M World unit :=
  write_file dst (stream f).

Definition Composer_save (d : document) (path : string) : M World unit :=
  write_file path (Docx d).

Definition os_path_isdir (p : string) : M World bool :=
  gets (fun w => match fs w !! p with Some Dir => true | _ => false end).

Definition os_path_exists (p : string) : M World bool :=
  gets (fun w => match fs w !! p with Some _ => true | None => false end).

Definition os_remove (p : string) : M World unit :=
  fun w =>
    match fault E (IoUnlink p) with
    | Some e => (w, inl e)
    | None =>
        match fs w !! p with
        | Some (File _) => (mkWorld (delete p (fs w)) (ticks w) (written w), inr tt)
        | Some Dir => (w, inl ("[Errno 21] Is a directory: '" +:+ p +:+ "'"))
        | None => (w, inl ("[Errno 2] No such file or directory: '" +:+ p +:+ "'"))
        end
    end.

Definition under (p q : string) : bool :=
  bool_decide (q = p) || Py.startswith q (p +:+ "/").

(** [shutil.rmtree(p, ignore_errors=True)]: never raises; an error leaves
    the tree in place. *)
Definition shutil_rmtree (p : string) : M World unit :=
  fun w =>
    match fault E (IoUnlink p) with
    | Some _ => (w, inr tt)
    | None =>
        (mkWorld (filter (fun kv => under p kv.1 = false) (fs w)) (ticks w) (written w), inr tt)
    end.

(** app.py lines 146-158 *)
Fixpoint cleanup_files (paths : list string) : M World unit :=
  match paths with
  | [] => ret tt
  | p :: rest =>
      let* _ := try_except
        (if negb (Py.truthy p) then ret tt
         else
           let* isdir := os_path_isdir p in
           if isdir then shutil_rmtree p
           else
             let* ex := os_path_exists p in
             if ex then os_remove p else ret tt)
        (fun _ => ret tt) in
      cleanup_files rest
  end.

(** app.py lines 118-144 *)
Definition merge_documents_properly
    (template_path content_path output_filename : string) : M World string :=
  let* template_doc := Document template_path in
  (* Composer(template_doc) wraps this very document: what is done to
     template_doc below is done to the composer's document *)
  let composer_doc := add_cover_break template_doc in
  let* content_doc := Document content_path in
  let composer_doc := Composer_append composer_doc content_doc in
  let* now := datetime_now in
  let out_path :=
    path_join UPLOAD_FOLDER
      ("merged_" +:+ strftime now +:+ "_" +:+ secure_filename output_filename) in
  let* _ := Composer_save composer_doc out_path in
  ret out_path.

Definition append_uploaded (p : string) : M Locals unit :=
  modify (fun s => mkLocals (world s) (uploaded_paths s ++ [p]) (merged_paths s)).

Definition append_merged (m : MergeResult) : M Locals unit :=
  modify (fun s => mkLocals (world s) (uploaded_paths s) (merged_paths s ++ [m])).

(** app.py lines 61-70: one turn of the loop over the content files *)
Definition merge_one (template_path : string) (cf : FileStorage) : M Locals unit :=
  if negb (allowed_file (filename cf)) then ret tt (* continue *)
  else
    let* now := lift datetime_now in
    let content_name := strftime now +:+ "_" +:+ secure_filename (filename cf) in
    let content_path := path_join UPLOAD_FOLDER content_name in
    let* _ := lift (FileStorage_save cf content_path) in
    let* _ := append_uploaded content_path in
    let out_name := out_basename (filename cf) in
    let* merged_path := lift (merge_documents_properly template_path content_path out_name) in
    append_merged (mkMergeResult out_name merged_path).

(** app.py line 60: [for cf in content_files] *)
Fixpoint merge_each (template_path : string) (content_files : list FileStorage)
    : M Locals unit :=
  match content_files with
  | [] => ret tt
  | cf :: rest =>
      let* _ := merge_one template_path cf in
      merge_each template_path rest
  end.

(** app.py lines 94-98: [zf.writestr] for each merged document *)
Fixpoint write_zip (ms : list MergeResult) (zf : list (string * Content))
    : M World (list (string * Content)) :=
  match ms with
  | [] => ret zf
  | m :: rest =>
      let* file_bytes := read_file (m_path m) in
      write_zip rest (zf ++ [(m_filename m, file_bytes)])
  end.

(** app.py lines 72-107: the response once the loop is over *)
Definition respond : M Locals Response :=
  let* merged := gets merged_paths in
  let* uploaded := gets uploaded_paths in
  match merged with
  | [] =>
      let* _ := lift (cleanup_files uploaded) in
      ret (jsonify_error "No valid .docx content files uploaded" 400)
  | [m] =>
      let* data := lift (read_file (m_path m)) in
      let* _ := lift (cleanup_files (uploaded ++ map m_path merged)) in
      ret (SendFile (FileBytes data) (m_filename m) DOCX_MIME)
  | _ =>
      let* zip_buffer := lift (write_zip merged []) in
      let* _ := lift (cleanup_files (uploaded ++ map m_path merged)) in
      ret (SendFile (ZipBytes zip_buffer) "merged_documents.zip" "application/zip")
  end.

(** app.py lines 52-107: what follows the validation *)
Definition save_and_merge (template_file : FileStorage) (content_files : list FileStorage)
    : M Locals Response :=
  let* ts := lift datetime_now in
  let template_name := strftime ts +:+ "_" +:+ secure_filename (filename template_file) in
  let template_path := path_join UPLOAD_FOLDER template_name in
  let* _ := lift (FileStorage_save template_file template_path) in
  let* _ := append_uploaded template_path in
  let* _ := merge_each template_path content_files in
  respond.

(** app.py lines 40-107: the body of the [try] *)
Definition merge_docx_try (files : Files) : M Locals Response :=
  if negb (contains "template" files) || negb (contains "content_files[]" files)
  then ret (jsonify_error "Missing files" 400)
  else
    let* template_file := getitem "template" files in
    let content_files := getlist "content_files[]" files in
    (* a file storage is truthy when its file name is *)
    if negb (Py.truthy (filename template_file)) || (if content_files is [] then true else false)
    then ret (jsonify_error "No files provided" 400)
    else if negb (allowed_file (filename template_file))
    then ret (jsonify_error "Template must be a .docx file" 400)
    else save_and_merge template_file content_files.

(** app.py lines 36-116: the handler, with its [except Exception]
    ([traceback.print_exc()] only writes to the server log) *)
Definition merge_docx (files : Files) (w : World) : World * Response :=
  match merge_docx_try files (mkLocals w [] []) with
  | (s, inr response) => (world s, response)
  | (s, inl e) =>
      let '(w', _) :=
        try_except
          (cleanup_files (uploaded_paths s ++ map m_path (merged_paths s)))
          (fun _ => ret tt) (world s) in
      (w', jsonify_error e 500)
  end.

End Handler.

(** ** Vocabulary of the statements *)

Definition is_digit (c : ascii) : bool :=
  (48 <=? nat_of_ascii c)%nat && (nat_of_ascii c <=? 57)%nat.

Definition upload_path (t : datetime) (name : string) : string :=
  path_join UPLOAD_FOLDER (strftime t +:+ "_" +:+ secure_filename name).

Definition merged_path (t : datetime) (name : string) : string :=
  path_join UPLOAD_FOLDER ("merged_" +:+ strftime t +:+ "_" +:+ secure_filename name).

Definition is_tbl (b : block) : bool :=
  match b with Tbl _ => true | Par _ => false end.

Definition reliable_unlink (E : Env) : Prop := forall p, fault E (IoUnlink p) = None.

(** No write fails after it has created its file. *)
Definition atomic_writes (E : Env) : Prop :=
  forall p e, fault E (IoWrite p) = Some e -> torn E p = false.

(** The document that one merge composes from a template and a content. *)
Definition merged_doc (T C : document) : document :=
  Composer_append (add_cover_break T) C.

Definition wrote (w : World) (p : string) (c : Content) (dt : nat) : World :=
  mkWorld (<[p := File c]> (fs w)) (dt + ticks w) (p :: written w).

Definition tick (w : World) : World :=
  mkWorld (fs w) (S (ticks w)) (written w).

Definition tracked (s : Locals) : list string :=
  uploaded_paths s ++ map m_path (merged_paths s).

(** What the specification calls the output name: the original file name
    with its five-character document extension replaced by the suffix. *)
Definition replace_extension (filename : string) : string :=
  Py.take (String.length filename - 5) filename +:+ "_with_cover.docx".

(** The response built from the merged documents once their bytes [cs]
    have been read back. *)
Definition package (ms : list MergeResult) (cs : list Content) : Response :=
  match ms, cs with
  | [], _ => jsonify_error "No valid .docx content files uploaded" 400
  | [m], [c] => SendFile (FileBytes c) (m_filename m) DOCX_MIME
  | _, _ =>
      SendFile (ZipBytes (zip (map m_filename ms) cs)) "merged_documents.zip" "application/zip"
  end.

Definition on_disk (w : World) (m : MergeResult) (c : Content) : Prop :=
  fs w !! m_path m = Some (File c).

(** Every file written since the world was [w0] is on the handler's lists,
    and no listed path is empty. *)
Definition new_files_tracked (w0 : World) (s : Locals) : Prop :=
  (exists new, written (world s) = new ++ written w0 /\
               forall p, p ∈ new -> p ∈ tracked s) /\
  (forall p, p ∈ tracked s -> Py.truthy p = true).

(** Every file written since the world was [w0] is gone. *)
Definition new_files_deleted (w0 w : World) : Prop :=
  exists new, written w = new ++ written w0 /\
              forall p, p ∈ new -> fs w !! p = None.

(** Every merged path on the handler's list is an output path of the merge
    pipeline and holds a document satisfying [P]. *)
Definition merged_on_disk (P : document -> Prop) (s : Locals) : Prop :=
  forall m, m ∈ merged_paths s ->
    (exists t o, m_path m = merged_path t o) /\
    (exists d, P d /\ fs (world s) !! m_path m = Some (File (Docx d))).

(** The output names of the content files that pass the extension check. *)
Definition output_names (content_files : list FileStorage) : list string :=
  map (fun cf => out_basename (filename cf))
      (filter (fun cf => allowed_file (filename cf) = true) content_files).

(** ** Sample data for the concrete runs *)

Module Sample.

(** A clock that advances by a microsecond at each reading; no I/O error. *)
Definition env : Env :=
  mkEnv (fun n => Datetime 2026 1 2 3 4 5 n) (fun _ => None) (fun _ => false).

(** The same, except that every removal fails. *)
Definition env_no_unlink : Env :=
  mkEnv (fun n => Datetime 2026 1 2 3 4 5 n)
        (fun c => match c with IoUnlink _ => Some "[Errno 13] Permission denied" | _ => None end)
        (fun _ => false).

(** A clock that does not advance between two readings. *)
Definition env_frozen : Env :=
  mkEnv (fun _ => Datetime 2026 1 2 3 4 5 0) (fun _ => None) (fun _ => false).

Definition empty : World := mkWorld ∅ 0 [].

Definition cover : document := Doc [Par [[Text "cover"]]] "cover styles".
Definition report : document := Doc [Par [[Text "report"]]] "report styles".
Definition annex : document := Doc [Tbl "figures"; Par [[Text "annex"]]] "annex styles".

Definition part (field name : string) (c : Content) : string * FileStorage :=
  (field, mkFileStorage name c).

Definition one_file : Files :=
  [part "template" "cover.docx" (Docx cover);
   part "content_files[]" "report.docx" (Docx report)].

Definition three_files : Files :=
  [part "template" "cover.docx" (Docx cover);
   part "content_files[]" "report.docx" (Docx report);
   part "content_files[]" "notes.txt" (Raw "notes");
   part "content_files[]" "annex.DOCX" (Docx annex)].

Definition corrupt_file : Files :=
  [part "template" "cover.docx" (Docx cover);
   part "content_files[]" "report.docx" (Docx report);
   part "content_files[]" "broken.docx" (Raw "not a zip archive")].

Definition no_template_name : Files :=
  [part "template" "" (Raw "");
   part "content_files[]" "report.docx" (Docx report)].

Definition text_template : Files :=
  [part "template" "cover.txt" (Raw "cover");
   part "content_files[]" "report.docx" (Docx report)].

Definition no_content_chosen : Files :=
  [part "template" "cover.docx" (Docx cover);
   part "content_files[]" "" (Raw "")].

Definition only_text_content : Files :=
  [part "template" "cover.docx" (Docx cover);
   part "content_files[]" "notes.txt" (Raw "notes")].

Definition same_names : Files :=
  [part "template" "a.docx" (Docx cover);
   part "content_files[]" "a.docx" (Docx report)].

(** A disk holding a template whose last paragraph is followed by a table,
    and a content document. *)
Definition letterhead : document :=
  Doc [Par [[Text "title"]]; Par [[Text "author"]]; Tbl "logo"] "letterhead styles".

Definition disk : World :=
  mkWorld (<["t.docx" := File (Docx letterhead)]>
             (<["c.docx" := File (Docx report)]> ∅)) 0 [].

Definition first_merge : World * (exn + string) :=
  Eval vm_compute in merge_documents_properly env "t.docx" "c.docx" "o.docx" disk.

Definition second_merge : World * (exn + string) :=
  Eval vm_compute in merge_documents_properly env "t.docx" "c.docx" "o.docx" first_merge.1.




(** A disk that holds the upload folder and nothing else. *)
Definition upload_folder_only : World :=
  mkWorld (<["temp_uploads" := Dir]> ∅) 0 [].

(** The state of the handler and the exception at the point where the
    merge of [corrupt_file] fails. *)
Definition corrupt_run : Locals * (exn + Response) :=
  Eval vm_compute in merge_docx_try env corrupt_file (mkLocals empty [] []).

End Sample.

(** ** Vocabulary of the further properties *)

(** No operating-system error at all. *)
Definition no_faults (E : Env) : Prop := forall c, fault E c = None.

(** The readings number [a] to [b - 1] of the clock all print differently. *)
Definition distinct_stamps (E : Env) (a b : nat) : Prop :=
  forall i j, a <= i < b -> a <= j < b ->
    strftime (clock E i) = strftime (clock E j) -> i = j.

(** No directory sits at a path where the handler stores an upload or a
    merged output. *)
Definition no_temp_dir (w : World) : Prop :=
  forall t name,
    fs w !! upload_path t name <> Some Dir /\ fs w !! merged_path t name <> Some Dir.


(** A file name made of letters, digits, [_], [.] and [-] only. *)
Definition plain_name (name : string) : Prop :=
  Forall (fun c => filename_char c = true) (list_ascii_of_string name).

(** Since the world was [w0] the handler has written at paths satisfying
    [P] only, every other path is as it was, no written path holds a
    directory, and every path on the handler's lists has been written. *)
Definition footprint (P : string -> Prop) (w0 : World) (s : Locals) : Prop :=
  exists new,
    written (world s) = new ++ written w0 /\
    Forall P new /\
    (forall q, q ∉ new -> fs (world s) !! q = fs w0 !! q) /\
    (forall p, p ∈ new -> fs (world s) !! p <> Some Dir) /\
    (forall p, p ∈ tracked s -> p ∈ new).

Definition footprint_world (P : string -> Prop) (w0 w : World) : Prop :=
  exists new,
    written w = new ++ written w0 /\
    Forall P new /\
    (forall q, q ∉ new -> fs w !! q = fs w0 !! q).

(** The path [temp_uploads/name] for a plain [name]. *)
Definition in_upload_folder (p : string) : Prop :=
  exists name, p = "temp_uploads/" +:+ name /\ plain_name name.

(** The response that carries the documents [docs] under the names
    [names]: the document itself when there is one, the archive otherwise. *)
Definition download (names : list string) (docs : list document) : Response :=
  match names, docs with
  | [n], [d] => SendFile (FileBytes (Docx d)) n DOCX_MIME
  | _, _ =>
      SendFile (ZipBytes (zip names (map Docx docs))) "merged_documents.zip" "application/zip"
  end.

(** The merged output [m] holds the document [d], at an output path made
    from a reading of the clock numbered from [a] on and already made. *)
Definition stored_since (E : Env) (a : nat) (s : Locals) (m : MergeResult) (d : document)
    : Prop :=
  fs (world s) !! m_path m = Some (File (Docx d)) /\
  exists k name, a <= k < ticks (world s) /\ m_path m = merged_path (clock E k) name.

(** The block ends in a page break: a paragraph whose last run ends with
    one. *)
Definition ends_in_page_break (b : block) : bool :=
  match b with
  | Par rs =>
      match last rs with
      | Some r => match last r with Some (Break PAGE) => true | _ => false end
      | None => false
      end
  | Tbl _ => false
  end.

(** In the body [template ++ content] the content begins on a new page:
    the block just before it ends in a page break. *)
Definition content_on_new_page (template_part : list block) : bool :=
  match last template_part with
  | Some b => ends_in_page_break b
  | None => false
  end.

(** The text of a document in reading order: the text items of its
    paragraphs and the payload of its tables. *)
Definition run_texts (r : run) : list string :=
  omap (fun it => match it with Text t => Some t | Break _ => None end) r.

Definition block_text (b : block) : list string :=
  match b with
  | Par rs => concat (map run_texts rs)
  | Tbl xml => [xml]
  end.

Definition doc_text (d : document) : list string :=
  concat (map block_text (body d)).

(** * Properties *)

(** ** Strings *)

Lemma app_cons c s t : String c s +:+ t = String c (s +:+ t).
Proof. reflexivity. Qed.

Lemma app_empty_l t : "" +:+ t = t.
Proof. reflexivity. Qed.

Lemma app_assoc_s a b c : (a +:+ b) +:+ c = a +:+ (b +:+ c).
Proof. induction a as [|x a IH]; [reflexivity|]. rewrite !app_cons. by rewrite IH. Qed.

Lemma length_app_s a b : String.length (a +:+ b) = String.length a + String.length b.
Proof. induction a as [|x a IH]; [reflexivity|]. rewrite app_cons. simpl. by rewrite IH. Qed.

Lemma lower_app a b : Py.lower (a +:+ b) = Py.lower a +:+ Py.lower b.
Proof. induction a as [|x a IH]; [reflexivity|]. rewrite app_cons. simpl. by rewrite IH, app_cons. Qed.

Lemma startswith_refl s : Py.startswith s s = true.
Proof. induction s as [|c s IH]; [reflexivity|]. cbn [Py.startswith]. by rewrite decide_True. Qed.

Lemma startswith_length s p : Py.startswith s p = true -> String.length p <= String.length s.
Proof.
  revert s. induction p as [|a p IH]; intros [|b s] H; cbn [Py.startswith String.length] in *;
    try lia; try discriminate.
  destruct (decide (a = b)); [|discriminate]. apply IH in H. lia.
Qed.

Lemma endswith_app p suf : Py.endswith (p +:+ suf) suf = true.
Proof.
  induction p as [|c p IH].
  - rewrite app_empty_l. destruct suf; cbn [Py.endswith]; by rewrite decide_True.
  - rewrite app_cons. cbn [Py.endswith]. destruct (decide _); [done|]. exact IH.
Qed.

Lemma endswith_inv s suf : Py.endswith s suf = true -> exists p, s = p +:+ suf.
Proof.
  induction s as [|c s IH]; cbn [Py.endswith].
  - destruct (decide _) as [<-|]; [|discriminate]. by exists "".
  - destruct (decide _) as [<-|].
    + by exists "".
    + intros H. destruct (IH H) as [p ->]. by exists (String c p).
Qed.

Lemma rfind_short s sep :
  String.length s < String.length sep -> Py.rfind s sep = None.
Proof.
  induction s as [|c s IH]; intros Hlt.
  - destruct sep; simpl in *; [lia|done].
  - simpl in Hlt. cbn [Py.rfind]. rewrite IH by lia.
    destruct (Py.startswith (String c s) sep) eqn:Hs; [|done].
    apply startswith_length in Hs. simpl in Hs. lia.
Qed.

Lemma rfind_suffix p sep :
  sep <> "" -> Py.rfind (p +:+ sep) sep = Some (String.length p).
Proof.
  intros Hne. induction p as [|c p IH].
  - rewrite app_empty_l. destruct sep as [|a sep]; [done|].
    cbn [Py.rfind]. rewrite rfind_short by (simpl; lia).
    by rewrite startswith_refl.
  - rewrite app_cons. cbn [Py.rfind]. by rewrite IH.
Qed.

Lemma take_app p t : Py.take (String.length p) (p +:+ t) = p.
Proof.
  induction p as [|c p IH]; [by destruct t|].
  rewrite app_cons. simpl. by rewrite IH.
Qed.

Lemma rsplit1_head_suffix p sep :
  sep <> "" -> Py.rsplit1_head (p +:+ sep) sep = p.
Proof. intros H. unfold Py.rsplit1_head. by rewrite rfind_suffix, take_app. Qed.

(** ** Time stamps and temporary paths *)

Lemma digit_is_digit n : is_digit (digit n) = true.
Proof.
  unfold digit. pose proof (Nat.mod_upper_bound n 10 ltac:(lia)) as H.
  destruct (n mod 10) as [|[|[|[|[|[|[|[|[|[|k]]]]]]]]]]; try reflexivity. lia.
Qed.

Lemma strftime_head t :
  exists d rest, strftime t = String d rest /\ is_digit d = true.
Proof.
  unfold strftime. cbn [zfill]. rewrite !app_empty_l, !app_cons.
  eexists _, _. split; [reflexivity|]. apply digit_is_digit.
Qed.

Lemma upload_path_eq t name :
  exists d rest, upload_path t name = "temp_uploads/" +:+ String d rest /\ is_digit d = true.
Proof.
  destruct (strftime_head t) as (d & rest & Ht & Hd).
  exists d, (rest +:+ "_" +:+ secure_filename name). split; [|done].
  unfold upload_path, path_join. rewrite Ht, app_cons.
  cbn [Py.startswith]. destruct (decide _) as [Heq|_].
  - rewrite <- Heq in Hd. discriminate.
  - reflexivity.
Qed.

Lemma merged_path_eq t name :
  merged_path t name =
  "temp_uploads/merged_" +:+ strftime t +:+ "_" +:+ secure_filename name.
Proof. reflexivity. Qed.

Lemma upload_path_not_merged t name t' name' :
  upload_path t name <> merged_path t' name'.
Proof.
  destruct (upload_path_eq t name) as (d & rest & -> & Hd).
  rewrite merged_path_eq. intros Heq.
  repeat (rewrite !app_cons in Heq; injection Heq as Heq).
  subst d. discriminate.
Qed.

Lemma upload_path_nonempty t name : Py.truthy (upload_path t name) = true.
Proof. destruct (upload_path_eq t name) as (d & rest & -> & _). reflexivity. Qed.

Lemma merged_path_nonempty t name : Py.truthy (merged_path t name) = true.
Proof. rewrite merged_path_eq. reflexivity. Qed.

(** ** Documents *)

Lemma par_positions_app i a b :
  par_positions i (a ++ b) = par_positions i a ++ par_positions (i + length a) b.
Proof.
  revert i. induction a as [|[p|x] a IH]; intros i; simpl.
  - by rewrite Nat.add_0_r.
  - rewrite IH. do 3 f_equal. lia.
  - rewrite IH. do 2 f_equal. lia.
Qed.

Lemma par_positions_tables i bs :
  Forall (fun b => is_tbl b = true) bs <-> par_positions i bs = [].
Proof.
  revert i. induction bs as [|[p|x] bs IH]; intros i; simpl.
  - split; [done|constructor].
  - split; [|done]. intros H. inversion H; subst. discriminate.
  - rewrite <- IH. split; [by inversion 1|by constructor].
Qed.

Lemma paragraphs_last (T : document) pre rs post :
  body T = pre ++ Par rs :: post ->
  Forall (fun b => is_tbl b = true) post ->
  paragraphs T = par_positions 0 pre ++ [length pre].
Proof.
  intros Hb Hpost. unfold paragraphs. rewrite Hb, par_positions_app. simpl.
  by rewrite (proj1 (par_positions_tables _ _) Hpost).
Qed.

(** Every body ends with a last paragraph followed by tables only, or has
    no paragraph at all. *)
Lemma body_split bs :
  (exists pre rs post, bs = pre ++ Par rs :: post /\ Forall (fun b => is_tbl b = true) post)
  \/ Forall (fun b => is_tbl b = true) bs.
Proof.
  induction bs as [|b bs IH]; [right; constructor|].
  destruct IH as [(pre & rs & post & -> & Hpost)|Hall].
  - left. by exists (b :: pre), rs, post.
  - destruct b as [p|x].
    + left. by exists [], p, bs.
    + right. by constructor.
Qed.

Lemma add_cover_break_last (T : document) pre rs post :
  body T = pre ++ Par rs :: post ->
  Forall (fun b => is_tbl b = true) post ->
  add_cover_break T = Doc (pre ++ Par (rs ++ [[Break PAGE]]) :: post) (base_parts T).
Proof.
  intros Hb Hpost. unfold add_cover_break.
  rewrite (paragraphs_last T pre rs post Hb Hpost).
  destruct (par_positions 0 pre ++ [length pre]) as [|i ps] eqn:Hps.
  { by destruct (par_positions 0 pre). }
  rewrite <- Hps, last_snoc. simpl default.
  unfold add_run. rewrite Hb, list_lookup_middle by done.
  unfold add_break. simpl.
  rewrite insert_app_r_alt, Nat.sub_diag by done. simpl.
  rewrite list_lookup_middle by done.
  unfold paragraph, run in *.
  rewrite (list_lookup_middle rs [] [] (length rs)) by done.
  rewrite !insert_app_r_alt, !Nat.sub_diag by done. simpl.
  reflexivity.
Qed.

Lemma add_cover_break_none (T : document) :
  paragraphs T = [] ->
  add_cover_break T = Doc (body T ++ [Par [[Break PAGE]]]) (base_parts T).
Proof.
  intros Hp. unfold add_cover_break. rewrite Hp.
  unfold add_paragraph, add_run, add_break. simpl.
  rewrite list_lookup_middle by done. simpl.
  rewrite insert_app_r_alt, Nat.sub_diag by done. simpl.
  rewrite list_lookup_middle by done. simpl.
  rewrite insert_app_r_alt, Nat.sub_diag by done. simpl.
  reflexivity.
Qed.

Lemma add_cover_break_parts (T : document) :
  base_parts (add_cover_break T) = base_parts T.
Proof.
  destruct (body_split (body T)) as [(pre & rs & post & Hb & Hpost)|Hall].
  - by rewrite (add_cover_break_last T pre rs post Hb Hpost).
  - rewrite add_cover_break_none; [done|]. by apply par_positions_tables.
Qed.

(** ** Cleanup *)

Ltac munfold :=
  unfold bind, ret, raise, try_except, gets, modify, lift,
    os_path_isdir, os_path_exists, os_remove, shutil_rmtree,
    FileStorage_save, Composer_save, write_file, read_file, Document,
    datetime_now, append_uploaded, append_merged in *.

Lemma cleanup_files_cons E p rest w :
  exists w1,
    cleanup_files E (p :: rest) w = cleanup_files E rest w1 /\
    ticks w1 = ticks w /\ written w1 = written w /\
    (forall q, fs w !! q = None -> fs w1 !! q = None) /\
    (reliable_unlink E -> Py.truthy p = true -> fs w1 !! p = None).
Proof.
  cbn [cleanup_files]. munfold.
  destruct (Py.truthy p) eqn:Hp; simpl.
  2:{ exists w. repeat split; auto. discriminate. }
  destruct (fs w !! p) as [[c|]|] eqn:Hl; simpl;
    destruct (fault E (IoUnlink p)) eqn:Hf; simpl; rewrite ?Hl, ?Hf; simpl.
  - exists w. repeat split; auto. intros Hr. by rewrite Hr in Hf.
  - eexists. split; [reflexivity|]. simpl. repeat split.
    + intros q Hq. destruct (decide (p = q)) as [->|]; [by rewrite lookup_delete_eq|].
      by rewrite lookup_delete_ne.
    + intros _ _. apply lookup_delete_eq.
  - exists w. repeat split; auto. intros Hr. by rewrite Hr in Hf.
  - eexists. split; [reflexivity|]. simpl. repeat split.
    + intros q Hq. apply map_lookup_filter_None. by left.
    + intros _ _. apply map_lookup_filter_None. right. intros x _. simpl.
      unfold under. by rewrite bool_decide_eq_true_2.
  - exists w. repeat split; auto.
  - exists w. repeat split; auto.
Qed.

Lemma cleanup_files_spec E paths w :
  let r := cleanup_files E paths w in
  r.2 = inr tt /\
  ticks r.1 = ticks w /\ written r.1 = written w /\
  (forall q, fs w !! q = None -> fs r.1 !! q = None) /\
  (reliable_unlink E ->
   forall p, p ∈ paths -> Py.truthy p = true -> fs r.1 !! p = None).
Proof.
  revert w. induction paths as [|p rest IH]; intros w.
  - simpl. repeat split; auto. intros _ p Hp. by apply elem_of_nil in Hp.
  - destruct (cleanup_files_cons E p rest w) as (w1 & -> & Ht & Hw & Hmono & Hdel).
    destruct (IH w1) as (Hr & Ht' & Hw' & Hmono' & Hdel').
    cbv zeta. split; [done|]. split; [congruence|]. split; [congruence|].
    split; [auto|].
    intros Hrel q Hq Hne. apply elem_of_cons in Hq as [->|Hq]; auto.
Qed.

(** ** The merge pipeline *)

Lemma write_file_cases E p c w :
  (exists e, write_file E p c w = (w, inl e)) \/
  (exists e, fault E (IoWrite p) = Some e /\ torn E p = true /\
             write_file E p c w = (wrote w p (Raw "") 0, inl e)) \/
  (fs w !! p <> Some Dir /\ fault E (IoWrite p) = None /\
   write_file E p c w = (wrote w p c 0, inr tt)).
Proof.
  unfold write_file, wrote.
  destruct (fs w !! p) as [[x|]|] eqn:Hl;
    destruct (fault E (IoWrite p)) eqn:Hf; try destruct (torn E p) eqn:Ht; eauto 10.
Qed.

Lemma merge_documents_properly_cases E t c o w :
  let out := merged_path (clock E (ticks w)) o in
  let r := merge_documents_properly E t c o w in
  (exists e, r.2 = inl e /\ fs r.1 = fs w /\ written r.1 = written w /\
             ticks w <= ticks r.1) \/
  (exists e, fault E (IoWrite out) = Some e /\ torn E out = true /\
             r = (wrote w out (Raw "") 1, inl e)) \/
  (exists T C, fs w !! t = Some (File (Docx T)) /\ fs w !! c = Some (File (Docx C)) /\
               r = (wrote w out (Docx (merged_doc T C)) 1, inr out)).
Proof.
  intros out r. subst r.
  unfold merge_documents_properly, bind, Document, datetime_now, Composer_save, ret.
  destruct (fault E (IoRead t)); [left; eexists; simpl; eauto|].
  destruct (fs w !! t) as [[[T|?]|]|] eqn:Ht; try (left; eexists; simpl; by eauto).
  destruct (fault E (IoRead c)); [left; eexists; simpl; eauto|].
  destruct (fs w !! c) as [[[C|?]|]|] eqn:Hc; try (left; eexists; simpl; by eauto).
  fold (merged_doc T C). fold (merged_path (clock E (ticks w)) o). fold out.
  set (w1 := mkWorld (fs w) (S (ticks w)) (written w)).
  destruct (write_file_cases E out (Docx (merged_doc T C)) w1)
    as [[e ->]|[(e & Hf & Htorn & ->)|(Hd & Hf & ->)]].
  - left. exists e. simpl. repeat split; auto.
  - right. left. exists e. repeat split; auto.
  - right. right. exists T, C. repeat split; auto.
Qed.

Lemma merge_documents_properly_ok E t c o w T C :
  let out := merged_path (clock E (ticks w)) o in
  fs w !! t = Some (File (Docx T)) -> fs w !! c = Some (File (Docx C)) ->
  fault E (IoRead t) = None -> fault E (IoRead c) = None ->
  fault E (IoWrite out) = None -> fs w !! out <> Some Dir ->
  merge_documents_properly E t c o w = (wrote w out (Docx (merged_doc T C)) 1, inr out).
Proof.
  intros out Ht Hc Hft Hfc Hfw Hd.
  unfold merge_documents_properly, bind, Document, datetime_now, Composer_save, ret, write_file.
  rewrite Hft, Ht, Hfc, Hc. simpl.
  fold (merged_doc T C). fold (merged_path (clock E (ticks w)) o). fold out.
  rewrite Hfw. destruct (fs w !! out) as [[?|]|]; done.
Qed.

(** ** Running the monad *)

Lemma bind_lift {A B} (m : M World A) (k : A -> M Locals B) s :
  bind (lift m) k s =
  match m (world s) with
  | (w, inr a) => k a (mkLocals w (uploaded_paths s) (merged_paths s))
  | (w, inl e) => (mkLocals w (uploaded_paths s) (merged_paths s), inl e)
  end.
Proof. unfold bind, lift. by destruct (m (world s)) as [w [e|a]]. Qed.

Lemma bind_modify {S B} (f : S -> S) (k : unit -> M S B) s :
  bind (modify f) k s = k tt (f s).
Proof. reflexivity. Qed.

Lemma bind_gets {S A B} (f : S -> A) (k : A -> M S B) s :
  bind (gets f) k s = k (f s) s.
Proof. reflexivity. Qed.

Lemma bind_ret {S A B} (a : A) (k : A -> M S B) s :
  bind (ret a) k s = k a s.
Proof. reflexivity. Qed.

Lemma now_run E w : datetime_now E w = (tick w, inr (clock E (ticks w))).
Proof. reflexivity. Qed.

(** ** One turn of the loop *)

Lemma merge_one_skip E tp cf s :
  allowed_file (filename cf) = false -> merge_one E tp cf s = (s, inr tt).
Proof. intros H. unfold merge_one. by rewrite H. Qed.

Lemma merge_one_cases E tp cf s :
  allowed_file (filename cf) = true ->
  let cp := upload_path (clock E (ticks (world s))) (filename cf) in
  let name := out_basename (filename cf) in
  let out := merged_path (clock E (S (ticks (world s)))) name in
  let up := uploaded_paths s ++ [cp] in
  let w2 := wrote (tick (world s)) cp (stream cf) 0 in
  let r := merge_one E tp cf s in
  (exists e, r = (mkLocals (tick (world s)) (uploaded_paths s) (merged_paths s), inl e)) \/
  (exists e, fault E (IoWrite cp) = Some e /\ torn E cp = true /\
     r = (mkLocals (wrote (tick (world s)) cp (Raw "") 0) (uploaded_paths s) (merged_paths s), inl e)) \/
  (exists e w', r = (mkLocals w' up (merged_paths s), inl e) /\
     fs w' = fs w2 /\ written w' = written w2) \/
  (exists e, fault E (IoWrite out) = Some e /\ torn E out = true /\
     r = (mkLocals (wrote w2 out (Raw "") 1) up (merged_paths s), inl e)) \/
  (exists T C, fs w2 !! tp = Some (File (Docx T)) /\ stream cf = Docx C /\
     r = (mkLocals (wrote w2 out (Docx (merged_doc T C)) 1) up
            (merged_paths s ++ [mkMergeResult name out]), inr tt)).
Proof.
  intros Hal cp name out up w2 r. subst r. unfold merge_one. rewrite Hal.
  cbn [negb]. cbv iota. rewrite bind_lift, now_run.
  fold (upload_path (clock E (ticks (world s))) (filename cf)). fold cp.
  rewrite bind_lift. cbn [world uploaded_paths merged_paths]. unfold FileStorage_save.
  destruct (write_file_cases E cp (stream cf) (tick (world s)))
    as [[e ->]|[(e & Hf & Htorn & ->)|(Hd & Hf & ->)]].
  - left. by exists e.
  - right. left. by exists e.
  - do 2 right. unfold append_uploaded, append_merged. rewrite bind_modify.
    cbn [world uploaded_paths merged_paths].
    fold up. fold w2. fold name. rewrite bind_lift. cbn [world uploaded_paths merged_paths].
    pose proof (merge_documents_properly_cases E tp cp name w2) as Hm.
    cbv zeta in Hm. change (clock E (ticks w2)) with (clock E (S (ticks (world s)))) in Hm.
    fold out in Hm.
    destruct (merge_documents_properly E tp cp name w2) as [w' res].
    destruct Hm as [(e & Hr & Hfs & Hw & _)|[(e & Hf' & Ht' & Hr)|(T & C & HT & HC & Hr)]];
      simpl in Hr.
    + subst res. left. exists e, w'. by repeat split.
    + injection Hr as -> ->. right. left. by exists e.
    + injection Hr as -> ->. do 2 right. exists T, C. split; [exact HT|]. split.
      * unfold w2, wrote in HC. cbn [fs] in HC. rewrite lookup_insert_eq in HC. congruence.
      * reflexivity.
Qed.

Lemma merge_each_state_inv E tp cfs (I : Locals -> Prop) :
  (forall cf s, cf ∈ cfs -> I s -> I (merge_one E tp cf s).1) ->
  forall s, I s -> I (merge_each E tp cfs s).1.
Proof.
  induction cfs as [|cf rest IH]; intros Hstep s Hs; [done|].
  cbn [merge_each]. unfold bind.
  pose proof (Hstep cf s ltac:(left) Hs) as H1.
  destruct (merge_one E tp cf s) as [s1 [e|[]]]; [done|].
  apply IH; [|done]. intros cf' s' Hin. apply Hstep. by right.
Qed.

Lemma merge_each_ok_inv E tp cfs (I : Locals -> Prop) :
  (forall cf s s', cf ∈ cfs -> I s -> merge_one E tp cf s = (s', inr tt) -> I s') ->
  forall s s', I s -> merge_each E tp cfs s = (s', inr tt) -> I s'.
Proof.
  induction cfs as [|cf rest IH]; intros Hstep s s' Hs Hrun.
  - cbn in Hrun. unfold ret in Hrun. congruence.
  - cbn [merge_each] in Hrun. unfold bind in Hrun.
    destruct (merge_one E tp cf s) as [s1 [e|[]]] eqn:H1; [done|].
    eapply IH; [| |exact Hrun].
    + intros cf' x x' Hin. apply Hstep. by right.
    + eapply Hstep; [by left|exact Hs|exact H1].
Qed.

(** ** The output name (C2) *)

(** C2, as amended: the output name is the sanitised content file name
    ([secure_filename] of the original) with its final lower-case [.docx]
    replaced by [_with_cover.docx], whenever the sanitised name ends in
    lower-case [.docx]. *)
Theorem out_basename_replaces_docx filename stem :
  secure_filename filename = stem +:+ ".docx" ->
  out_basename filename = stem +:+ "_with_cover.docx".
Proof.
  intros H. unfold out_basename. rewrite H. by rewrite rsplit1_head_suffix.
Qed.

Lemma out_basename_replaces_docx_witness :
  secure_filename "my report.docx" = "my_report" +:+ ".docx" /\
  out_basename "my report.docx" = "my_report" +:+ "_with_cover.docx".
Proof.
  split; [vm_compute; reflexivity|].
  apply (out_basename_replaces_docx "my report.docx" "my_report"). vm_compute. reflexivity.
Defined.

(** C2 as stated fails: an accepted upper-case extension is kept in front
    of the suffix, and the name is sanitised before the suffix is added. *)
Lemma out_basename_not_replace_extension :
  (allowed_file "Report.DOCX" = true /\
   out_basename "Report.DOCX" = "Report.DOCX_with_cover.docx" /\
   replace_extension "Report.DOCX" = "Report_with_cover.docx") /\
  (allowed_file "my report.docx" = true /\
   out_basename "my report.docx" = "my_report_with_cover.docx" /\
   replace_extension "my report.docx" = "my report_with_cover.docx").
Proof. vm_compute. repeat split. Qed.

(** ** Where the page break goes *)

(** A successful merge loads the template [T] and the content [C] and
    saves a document [D] that keeps the template's parts. If [T] has a
    paragraph, the last one (only tables may follow it) is the one that
    receives a new run holding a page break; otherwise a paragraph holding
    that run is added at the end. The body of [C] comes after the body of
    [T] so modified, hence after the page break. *)
Lemma cover_break_position E t c o w w' out :
  merge_documents_properly E t c o w = (w', inr out) ->
  exists T C D,
    fs w !! t = Some (File (Docx T)) /\
    fs w !! c = Some (File (Docx C)) /\
    fs w' !! out = Some (File (Docx D)) /\
    base_parts D = base_parts T /\
    ((exists pre rs post,
        body T = pre ++ Par rs :: post /\
        Forall (fun b => is_tbl b = true) post /\
        last (paragraphs T) = Some (length pre) /\
        body D = (pre ++ Par (rs ++ [[Break PAGE]]) :: post) ++ body C)
     \/
     (paragraphs T = [] /\
      body D = (body T ++ [Par [[Break PAGE]]]) ++ body C)).
Proof.
  intros Hrun.
  pose proof (merge_documents_properly_cases E t c o w) as Hc. cbv zeta in Hc.
  rewrite Hrun in Hc.
  destruct Hc as [(e & Hr & _)|[(e & _ & _ & Hr)|(T & C & HT & HC & Hr)]];
    [discriminate Hr|discriminate Hr|].
  injection Hr as -> ->.
  exists T, C, (merged_doc T C). split; [exact HT|]. split; [exact HC|].
  split; [apply lookup_insert_eq|]. split; [apply add_cover_break_parts|].
  destruct (body_split (body T)) as [(pre & rs & post & Hb & Hpost)|Hall].
  - left. exists pre, rs, post. split; [exact Hb|]. split; [exact Hpost|]. split.
    + rewrite (paragraphs_last T pre rs post Hb Hpost). apply last_snoc.
    + unfold merged_doc. by rewrite (add_cover_break_last T pre rs post Hb Hpost).
  - right. assert (paragraphs T = []) as Hp by (by apply par_positions_tables).
    split; [exact Hp|]. unfold merged_doc. by rewrite (add_cover_break_none T Hp).
Qed.

(** ** Repeating a merge (C9) *)

(** C9: two runs of the merge pipeline on the same template file, content
    file and output name, in any two states of the world that hold the
    same two input files, save the same document; the two output paths
    differ only in the time stamp read by each run. Nothing but the two
    files read from disk flows from one call into the other. *)
Theorem merge_repeatable E t c o w1 w2 w1' w2' p1 p2 :
  fs w1 !! t = fs w2 !! t ->
  fs w1 !! c = fs w2 !! c ->
  merge_documents_properly E t c o w1 = (w1', inr p1) ->
  merge_documents_properly E t c o w2 = (w2', inr p2) ->
  fs w1' !! p1 = fs w2' !! p2 /\
  (exists T C, fs w1 !! t = Some (File (Docx T)) /\ fs w1 !! c = Some (File (Docx C)) /\
               fs w1' !! p1 = Some (File (Docx (merged_doc T C)))) /\
  p1 = merged_path (clock E (ticks w1)) o /\
  p2 = merged_path (clock E (ticks w2)) o.
Proof.
  intros Ht Hc H1 H2.
  pose proof (merge_documents_properly_cases E t c o w1) as C1. cbv zeta in C1.
  pose proof (merge_documents_properly_cases E t c o w2) as C2. cbv zeta in C2.
  rewrite H1 in C1. rewrite H2 in C2.
  destruct C1 as [(e & Hr & _)|[(e & _ & _ & Hr)|(T1 & D1 & HT1 & HC1 & Hr1)]];
    [discriminate Hr|discriminate Hr|].
  destruct C2 as [(e & Hr & _)|[(e & _ & _ & Hr)|(T2 & D2 & HT2 & HC2 & Hr2)]];
    [discriminate Hr|discriminate Hr|].
  injection Hr1 as -> ->. injection Hr2 as -> ->.
  rewrite HT1, HT2 in Ht. rewrite HC1, HC2 in Hc.
  injection Ht as <-. injection Hc as <-.
  unfold wrote. cbn [fs]. rewrite !lookup_insert_eq.
  split; [reflexivity|]. split; [|split; reflexivity].
  exists T1, D1. split; [exact HT1|]. split; [exact HC1|reflexivity].
Qed.

Lemma merge_repeatable_witness :
  let p1 := "temp_uploads/merged_20260102030405000000_o.docx" in
  let p2 := "temp_uploads/merged_20260102030405000001_o.docx" in
  let w1 := Sample.disk in
  let w2 := Sample.first_merge.1 in
  (fs w1 !! "t.docx" = fs w2 !! "t.docx" /\
   fs w1 !! "c.docx" = fs w2 !! "c.docx" /\
   merge_documents_properly Sample.env "t.docx" "c.docx" "o.docx" w1 = (w2, inr p1) /\
   merge_documents_properly Sample.env "t.docx" "c.docx" "o.docx" w2 =
     (Sample.second_merge.1, inr p2)) /\
  fs w2 !! p1 = fs Sample.second_merge.1 !! p2.
Proof.
  intros p1 p2 w1 w2.
  assert (fs w1 !! "t.docx" = fs w2 !! "t.docx") as Ht by (vm_compute; reflexivity).
  assert (fs w1 !! "c.docx" = fs w2 !! "c.docx") as Hc by (vm_compute; reflexivity).
  assert (merge_documents_properly Sample.env "t.docx" "c.docx" "o.docx" w1 = (w2, inr p1))
    as H1 by (vm_compute; reflexivity).
  assert (merge_documents_properly Sample.env "t.docx" "c.docx" "o.docx" w2 =
          (Sample.second_merge.1, inr p2)) as H2 by (vm_compute; reflexivity).
  split; [by repeat split|].
  exact (proj1 (merge_repeatable _ _ _ _ _ _ _ _ _ _ Ht Hc H1 H2)).
Defined.

(** ** The handler, step by step *)

Lemma contains_getlist key files :
  contains key files = true <-> getlist key files <> [].
Proof.
  unfold contains, getlist. rewrite bool_decide_eq_true.
  induction files as [|[k f] rest IH].
  - split; [intros H; by apply elem_of_nil in H|done].
  - rewrite fmap_cons, elem_of_cons. cbn [fst].
    rewrite (filter_cons (fun kv : string * FileStorage => kv.1 = key)). cbn [fst].
    destruct (decide (k = key)) as [->|Hne].
    + split; [done|auto].
    + rewrite <- IH. split; [intros [?|?]; [congruence|done]|auto].
Qed.

Lemma merge_docx_try_missing E files s :
  contains "template" files = false \/ contains "content_files[]" files = false ->
  merge_docx_try E files s = (s, inr (jsonify_error "Missing files" 400)).
Proof. unfold merge_docx_try. by intros [-> | ->]; rewrite ?orb_true_r. Qed.

Lemma merge_docx_try_present E files s tf rest :
  getlist "template" files = tf :: rest ->
  contains "content_files[]" files = true ->
  merge_docx_try E files s =
  if negb (Py.truthy (filename tf))
  then (s, inr (jsonify_error "No files provided" 400))
  else if negb (allowed_file (filename tf))
  then (s, inr (jsonify_error "Template must be a .docx file" 400))
  else save_and_merge E tf (getlist "content_files[]" files) s.
Proof.
  intros Ht Hc. unfold merge_docx_try.
  assert (contains "template" files = true) as ->.
  { apply contains_getlist. by rewrite Ht. }
  rewrite Hc. cbn [negb orb]. unfold getitem. rewrite Ht, bind_ret.
  apply contains_getlist in Hc.
  destruct (getlist "content_files[]" files) as [|cf cfs]; [done|].
  rewrite orb_false_r.
  destruct (Py.truthy (filename tf)); [|reflexivity]. cbn [negb].
  destruct (allowed_file (filename tf)); reflexivity.
Qed.

Lemma save_and_merge_run E tf cfs s :
  let tp := upload_path (clock E (ticks (world s))) (filename tf) in
  save_and_merge E tf cfs s =
  match write_file E tp (stream tf) (tick (world s)) with
  | (w, inl e) => (mkLocals w (uploaded_paths s) (merged_paths s), inl e)
  | (w, inr _) =>
      bind (merge_each E tp cfs) (fun _ => respond E)
        (mkLocals w (uploaded_paths s ++ [tp]) (merged_paths s))
  end.
Proof.
  intros tp. unfold save_and_merge. rewrite bind_lift, now_run.
  fold (upload_path (clock E (ticks (world s))) (filename tf)). fold tp.
  rewrite bind_lift. cbn [world uploaded_paths merged_paths]. unfold FileStorage_save.
  destruct (write_file E tp (stream tf) (tick (world s))) as [w [e|[]]]; [reflexivity|].
  unfold append_uploaded. rewrite bind_modify. reflexivity.
Qed.

Lemma read_file_cases E p w :
  (exists e, read_file E p w = (w, inl e)) \/
  (exists c, fs w !! p = Some (File c) /\ read_file E p w = (w, inr c)).
Proof.
  unfold read_file. destruct (fault E (IoRead p)); [left; eauto|].
  destruct (fs w !! p) as [[c|]|]; [right|left|left]; eauto.
Qed.

Lemma write_zip_cases E ms zf w :
  (exists e, write_zip E ms zf w = (w, inl e)) \/
  (exists cs, Forall2 (on_disk w) ms cs /\
              write_zip E ms zf w = (w, inr (zf ++ zip (map m_filename ms) cs))).
Proof.
  revert zf. induction ms as [|m ms IH]; intros zf.
  - right. exists []. split; [constructor|]. cbn. unfold ret. by rewrite app_nil_r.
  - cbn [write_zip]. unfold bind.
    destruct (read_file_cases E (m_path m) w) as [[e ->]|(c & Hc & ->)]; [left; eauto|].
    destruct (IH (zf ++ [(m_filename m, c)])) as [[e ->]|(cs & Hcs & ->)]; [left; eauto|].
    right. exists (c :: cs). split; [by constructor|].
    cbn [map zip zip_with]. by rewrite <- app_assoc.
Qed.

Lemma bind_cleanup {B} E paths (k : unit -> M Locals B) s :
  bind (lift (cleanup_files E paths)) k s =
  k tt (mkLocals (cleanup_files E paths (world s)).1 (uploaded_paths s) (merged_paths s)).
Proof.
  rewrite bind_lift. pose proof (cleanup_files_spec E paths (world s)) as [Hr _].
  destruct (cleanup_files E paths (world s)) as [w [e|[]]]; [discriminate Hr|reflexivity].
Qed.

Lemma respond_cases E s :
  (exists e, merged_paths s <> [] /\ respond E s = (s, inl e)) \/
  (exists cs, Forall2 (on_disk (world s)) (merged_paths s) cs /\
     respond E s =
     (mkLocals (cleanup_files E (tracked s) (world s)).1 (uploaded_paths s) (merged_paths s),
      inr (package (merged_paths s) cs))).
Proof.
  unfold respond. rewrite !bind_gets. unfold tracked.
  destruct s as [w up ms]. cbn [world uploaded_paths merged_paths].
  destruct ms as [|m [|m' ms]].
  - right. exists []. split; [constructor|]. rewrite bind_cleanup. cbn [map]. by rewrite app_nil_r.
  - rewrite bind_lift. cbn [world uploaded_paths merged_paths].
    destruct (read_file_cases E (m_path m) w) as [[e ->]|(c & Hc & ->)]; [left; by eauto|].
    right. exists [c]. split; [by repeat constructor|]. by rewrite bind_cleanup.
  - rewrite bind_lift. cbn [world uploaded_paths merged_paths].
    destruct (write_zip_cases E (m :: m' :: ms) [] w) as [[e ->]|(cs & Hcs & ->)];
      [left; by eauto|].
    right. exists cs. split; [exact Hcs|]. rewrite bind_cleanup.
    inversion Hcs as [|? c ? cs' _ Hcs']; subst. inversion Hcs'; subst. reflexivity.
Qed.

Lemma allowed_file_truthy f : allowed_file f = true -> Py.truthy f = true.
Proof. unfold allowed_file. by intros [? _]%andb_true_iff. Qed.

Lemma merge_each_skip_all E tp cfs s :
  Forall (fun cf => allowed_file (filename cf) = false) cfs ->
  merge_each E tp cfs s = (s, inr tt).
Proof.
  induction 1 as [|cf cfs Hcf _ IH]; [reflexivity|].
  cbn [merge_each]. unfold bind. by rewrite merge_one_skip.
Qed.

Lemma merge_each_filter E tp cfs s :
  merge_each E tp cfs s =
  merge_each E tp (filter (fun cf => allowed_file (filename cf) = true) cfs) s.
Proof.
  revert s. induction cfs as [|cf cfs IH]; intros s; [reflexivity|].
  rewrite filter_cons. destruct (decide (allowed_file (filename cf) = true)) as [Ha|Ha].
  - cbn [merge_each]. unfold bind.
    destruct (merge_one E tp cf s) as [s1 [e|[]]]; [reflexivity|apply IH].
  - apply not_true_is_false in Ha. cbn [merge_each]. unfold bind.
    rewrite merge_one_skip by exact Ha. apply IH.
Qed.

Lemma no_valid_content_run E files w tf rest :
  getlist "template" files = tf :: rest ->
  contains "content_files[]" files = true ->
  allowed_file (filename tf) = true ->
  Forall (fun cf => allowed_file (filename cf) = false) (getlist "content_files[]" files) ->
  let tp := upload_path (clock E (ticks w)) (filename tf) in
  fault E (IoWrite tp) = None ->
  fs w !! tp <> Some Dir ->
  merge_docx E files w =
  ((cleanup_files E [tp] (wrote (tick w) tp (stream tf) 0)).1,
   jsonify_error "No valid .docx content files uploaded" 400).
Proof.
  intros Ht Hc Ha Hall tp Hf Hd. unfold merge_docx.
  rewrite (merge_docx_try_present E files _ tf rest Ht Hc).
  rewrite (allowed_file_truthy _ Ha), Ha. cbn [negb].
  rewrite save_and_merge_run. cbn [world uploaded_paths merged_paths]. fold tp.
  destruct (write_file_cases E tp (stream tf) (tick w))
    as [[e He]|[(e & Hf' & _)|(_ & _ & ->)]].
  - exfalso. unfold write_file in He. cbn [fs tick] in He. rewrite Hf in He.
    destruct (fs w !! tp) as [[?|]|]; congruence.
  - congruence.
  - unfold bind. rewrite merge_each_skip_all by exact Hall.
    destruct (respond_cases E (mkLocals (wrote (tick w) tp (stream tf) 0) ([] ++ [tp]) []))
      as [(e & Hne & _)|(cs & Hcs & ->)]; [done|reflexivity].
Qed.

(** ** Template validation (C7) *)

(** C7, as amended: when both fields are present and the file name of the
    template does not end in [.docx] (in any letter case), the handler
    answers 400 and does nothing else: no clock reading, no file saved, no
    merge. The message is 'Template must be a .docx file' for a non-empty
    name and 'No files provided' for an empty one. Conversely every name
    that ends in the extension, in any letter case, passes the check. *)
Theorem template_extension_checked :
  (forall E files w tf rest,
     getlist "template" files = tf :: rest ->
     contains "content_files[]" files = true ->
     allowed_file (filename tf) = false ->
     merge_docx E files w =
     (w, jsonify_error (if Py.truthy (filename tf)
                        then "Template must be a .docx file"
                        else "No files provided") 400)) /\
  (forall stem ext, Py.lower ext = ".docx" -> allowed_file (stem +:+ ext) = true).
Proof.
  split.
  - intros E files w tf rest Ht Hc Ha. unfold merge_docx.
    rewrite (merge_docx_try_present E files _ tf rest Ht Hc), Ha.
    by destruct (Py.truthy (filename tf)).
  - intros stem ext Hext. unfold allowed_file. rewrite lower_app, Hext, endswith_app.
    rewrite andb_true_r. destruct ext; [discriminate Hext|]. by destruct stem.
Qed.

Lemma template_extension_checked_witness :
  (getlist "template" Sample.text_template =
     [mkFileStorage "cover.txt" (Raw "cover")] /\
   contains "content_files[]" Sample.text_template = true /\
   allowed_file "cover.txt" = false /\
   merge_docx Sample.env Sample.text_template Sample.empty =
     (Sample.empty, jsonify_error "Template must be a .docx file" 400)) /\
  (Py.lower ".DocX" = ".docx" /\ allowed_file ("Cover" +:+ ".DocX") = true).
Proof.
  destruct template_extension_checked as [H1 H2].
  split.
  - split; [reflexivity|]. split; [reflexivity|]. split; [reflexivity|].
    apply (H1 Sample.env Sample.text_template Sample.empty
              (mkFileStorage "cover.txt" (Raw "cover")) []); reflexivity.
  - split; [reflexivity|]. apply (H2 "Cover" ".DocX"). reflexivity.
Defined.

(** C7 as stated fails for the empty file name: the message is then
    'No files provided'. *)
Lemma empty_template_name_other_message :
  allowed_file "" = false /\
  merge_docx Sample.env Sample.no_template_name Sample.empty =
    (Sample.empty, jsonify_error "No files provided" 400) /\
  jsonify_error "No files provided" 400 <> jsonify_error "Template must be a .docx file" 400.
Proof. split; [reflexivity|]. split; [reflexivity|]. discriminate. Qed.

(** ** Missing and empty fields (C8) *)

(** C8, as amended: a request without the [template] field or without the
    [content_files[]] field, or whose template part has no file name, is
    answered 400 with the world untouched, so before any file is saved.
    When only the content parts have no file name and the template is
    accepted and stored, the answer is still 400, but it comes after the
    template was written to disk. *)
Theorem missing_or_empty_fields E files w :
  (contains "template" files = false \/ contains "content_files[]" files = false ->
   merge_docx E files w = (w, jsonify_error "Missing files" 400)) /\
  (forall tf rest,
     getlist "template" files = tf :: rest ->
     contains "content_files[]" files = true ->
     filename tf = "" ->
     merge_docx E files w = (w, jsonify_error "No files provided" 400)) /\
  (forall tf rest,
     getlist "template" files = tf :: rest ->
     contains "content_files[]" files = true ->
     allowed_file (filename tf) = true ->
     Forall (fun cf => filename cf = "") (getlist "content_files[]" files) ->
     let tp := upload_path (clock E (ticks w)) (filename tf) in
     fault E (IoWrite tp) = None ->
     fs w !! tp <> Some Dir ->
     exists w',
       merge_docx E files w =
         (w', jsonify_error "No valid .docx content files uploaded" 400) /\
       written w' = tp :: written w).
Proof.
  split; [|split].
  - intros H. unfold merge_docx. by rewrite merge_docx_try_missing.
  - intros tf rest Ht Hc Hn. unfold merge_docx.
    rewrite (merge_docx_try_present E files _ tf rest Ht Hc), Hn. reflexivity.
  - intros tf rest Ht Hc Ha Hall tp Hf Hd. eexists. split.
    + apply (no_valid_content_run E files w tf rest Ht Hc Ha); [|exact Hf|exact Hd].
      eapply Forall_impl; [exact Hall|]. by intros cf ->.
    + pose proof (cleanup_files_spec E [tp] (wrote (tick w) tp (stream tf) 0)) as H.
      cbv zeta in H. destruct H as (_ & _ & Hw & _). exact Hw.
Qed.

Lemma missing_or_empty_fields_witness :
  (contains "template" [] = false \/ contains "content_files[]" [] = false) /\
  merge_docx Sample.env [] Sample.empty = (Sample.empty, jsonify_error "Missing files" 400) /\
  merge_docx Sample.env Sample.no_template_name Sample.empty =
    (Sample.empty, jsonify_error "No files provided" 400) /\
  exists w',
    merge_docx Sample.env Sample.no_content_chosen Sample.empty =
      (w', jsonify_error "No valid .docx content files uploaded" 400) /\
    written w' = [upload_path (Datetime 2026 1 2 3 4 5 0) "cover.docx"].
Proof.
  split; [by left|]. split; [|split].
  - apply (missing_or_empty_fields Sample.env [] Sample.empty). by left.
  - apply (proj1 (proj2 (missing_or_empty_fields Sample.env Sample.no_template_name Sample.empty))
             (mkFileStorage "" (Raw "")) []); reflexivity.
  - apply (proj2 (proj2 (missing_or_empty_fields Sample.env Sample.no_content_chosen Sample.empty))
             (mkFileStorage "cover.docx" (Docx Sample.cover)) []);
      try reflexivity.
    + repeat constructor.
    + vm_compute. discriminate.
Defined.

(** C8 as stated fails when the content field is present but empty and the
    template is valid: the 400 is sent after the template was saved. *)
Lemma empty_content_after_template_saved :
  (merge_docx Sample.env Sample.no_content_chosen Sample.empty).2 =
    jsonify_error "No valid .docx content files uploaded" 400 /\
  written (merge_docx Sample.env Sample.no_content_chosen Sample.empty).1 =
    ["temp_uploads/20260102030405000000_cover.docx"].
Proof. vm_compute. split; reflexivity. Qed.

(** ** Skipped content files (C4) *)

(** C4: the loop treats the content files exactly as if those failing the
    extension check had not been uploaded (they are neither saved nor
    merged, and they do not stop the loop); and when a valid template has
    been stored and no content file passes the check, the response is the
    400 'No valid .docx content files uploaded'. *)
Theorem invalid_content_skipped E :
  (forall tp cfs s,
     merge_each E tp cfs s =
     merge_each E tp (filter (fun cf => allowed_file (filename cf) = true) cfs) s) /\
  (forall files w tf rest,
     getlist "template" files = tf :: rest ->
     contains "content_files[]" files = true ->
     allowed_file (filename tf) = true ->
     Forall (fun cf => allowed_file (filename cf) = false) (getlist "content_files[]" files) ->
     let tp := upload_path (clock E (ticks w)) (filename tf) in
     fault E (IoWrite tp) = None ->
     fs w !! tp <> Some Dir ->
     (merge_docx E files w).2 = jsonify_error "No valid .docx content files uploaded" 400).
Proof.
  split.
  - apply merge_each_filter.
  - intros files w tf rest Ht Hc Ha Hall tp Hf Hd.
    by rewrite (no_valid_content_run E files w tf rest Ht Hc Ha Hall Hf Hd).
Qed.

Lemma invalid_content_skipped_witness :
  (merge_docx Sample.env Sample.only_text_content Sample.empty).2 =
    jsonify_error "No valid .docx content files uploaded" 400.
Proof.
  apply (proj2 (invalid_content_skipped Sample.env) Sample.only_text_content Sample.empty
           (mkFileStorage "cover.docx" (Docx Sample.cover)) []); try reflexivity.
  - repeat constructor.
  - vm_compute. discriminate.
Defined.

(** ** Temporary files (C1) *)

Lemma merge_one_tracked E w0 tp cf s :
  atomic_writes E ->
  new_files_tracked w0 s -> new_files_tracked w0 (merge_one E tp cf s).1.
Proof.
  intros Hat Hs.
  destruct (allowed_file (filename cf)) eqn:Hal;
    [|rewrite merge_one_skip by exact Hal; exact Hs].
  destruct Hs as [(new & Hnew & Htr) Hne].
  pose proof (merge_one_cases E tp cf s Hal) as Hc. cbv zeta in Hc.
  set (cp := upload_path (clock E (ticks (world s))) (filename cf)) in *.
  set (out := merged_path (clock E (S (ticks (world s)))) (out_basename (filename cf))) in *.
  assert (Py.truthy cp = true) as Hcp by apply upload_path_nonempty.
  assert (Py.truthy out = true) as Hout by apply merged_path_nonempty.
  destruct Hc as [[e ->]|[(e & Hf & Ht & _)|[(e & w' & -> & Hfs & Hw)|
                 [(e & Hf & Ht & _)|(T & C & _ & _ & ->)]]]].
  - split; [|exact Hne]. exists new. split; [exact Hnew|exact Htr].
  - rewrite (Hat _ _ Hf) in Ht. discriminate.
  - unfold new_files_tracked, tracked in *. cbn [fst world uploaded_paths merged_paths].
    split.
    + exists (cp :: new). rewrite Hw. cbn [written wrote tick]. rewrite Hnew.
      split; [reflexivity|]. intros p [->|Hp]%elem_of_cons.
      * rewrite !elem_of_app. left. right. by left.
      * specialize (Htr p Hp). rewrite !elem_of_app in *. tauto.
    + intros p. rewrite !elem_of_app. intros [[Hp|Hp]|Hp].
      * apply Hne. rewrite elem_of_app. by left.
      * apply list_elem_of_singleton in Hp. by subst p.
      * apply Hne. rewrite elem_of_app. by right.
  - rewrite (Hat _ _ Hf) in Ht. discriminate.
  - unfold new_files_tracked, tracked in *. cbn [fst world uploaded_paths merged_paths].
    split.
    + exists (out :: cp :: new). cbn [written wrote tick]. rewrite Hnew.
      split; [reflexivity|]. rewrite map_app. cbn [map m_path].
      intros p [->|[->|Hp]%elem_of_cons]%elem_of_cons.
      * rewrite !elem_of_app. right. right. by left.
      * rewrite !elem_of_app. left. right. by left.
      * specialize (Htr p Hp). rewrite !elem_of_app in *. tauto.
    + intros p. rewrite map_app. cbn [map m_path]. rewrite !elem_of_app.
      intros [[Hp|Hp]|[Hp|Hp]].
      * apply Hne. rewrite elem_of_app. by left.
      * apply list_elem_of_singleton in Hp. by subst p.
      * apply Hne. rewrite elem_of_app. by right.
      * apply list_elem_of_singleton in Hp. by subst p.
Qed.

Lemma cleanup_deletes_new E w0 s :
  reliable_unlink E ->
  new_files_tracked w0 s ->
  new_files_deleted w0 (cleanup_files E (tracked s) (world s)).1.
Proof.
  intros Hrel [(new & Hnew & Htr) Hne].
  pose proof (cleanup_files_spec E (tracked s) (world s)) as H. cbv zeta in H.
  destruct H as (_ & _ & Hw & _ & Hdel).
  exists new. split; [by rewrite Hw|].
  intros p Hp. apply (Hdel Hrel); auto.
Qed.

Lemma save_and_merge_files E w0 tf cfs s :
  atomic_writes E -> reliable_unlink E ->
  new_files_tracked w0 s ->
  match (save_and_merge E tf cfs s).2 with
  | inl _ => new_files_tracked w0 (save_and_merge E tf cfs s).1
  | inr _ => new_files_deleted w0 (world (save_and_merge E tf cfs s).1)
  end.
Proof.
  intros Hat Hrel Hs. rewrite save_and_merge_run. cbv zeta.
  set (tp := upload_path (clock E (ticks (world s))) (filename tf)).
  assert (Py.truthy tp = true) as Htp by apply upload_path_nonempty.
  destruct Hs as [(new & Hnew & Htr) Hne].
  destruct (write_file_cases E tp (stream tf) (tick (world s)))
    as [[e ->]|[(e & Hf & Ht & _)|(_ & _ & ->)]].
  - cbn [fst snd]. split; [|exact Hne]. by exists new.
  - rewrite (Hat _ _ Hf) in Ht. discriminate.
  - set (s1 := mkLocals (wrote (tick (world s)) tp (stream tf) 0)
                        (uploaded_paths s ++ [tp]) (merged_paths s)).
    assert (new_files_tracked w0 s1) as Hs1.
    { unfold new_files_tracked, tracked in *. subst s1.
      cbn [world uploaded_paths merged_paths]. split.
      - exists (tp :: new). cbn [written wrote tick]. rewrite Hnew.
        split; [reflexivity|]. intros p [->|Hp]%elem_of_cons.
        + rewrite !elem_of_app. left. right. by left.
        + specialize (Htr p Hp). rewrite !elem_of_app in *. tauto.
      - intros p. rewrite !elem_of_app. intros [[Hp|Hp]|Hp].
        + apply Hne. rewrite elem_of_app. by left.
        + apply list_elem_of_singleton in Hp. by subst p.
        + apply Hne. rewrite elem_of_app. by right. }
    unfold bind.
    pose proof (merge_each_state_inv E tp cfs (new_files_tracked w0)
                  (fun cf x _ => merge_one_tracked E w0 tp cf x Hat) s1 Hs1) as Hs2.
    destruct (merge_each E tp cfs s1) as [s2 [e|[]]]; cbn [fst snd] in *; [exact Hs2|].
    destruct (respond_cases E s2) as [(e & _ & ->)|(cs & _ & ->)]; cbn [fst snd world].
    + exact Hs2.
    + by apply cleanup_deletes_new.
Qed.

Lemma merge_docx_try_files E files w :
  atomic_writes E -> reliable_unlink E ->
  match (merge_docx_try E files (mkLocals w [] [])).2 with
  | inl _ => new_files_tracked w (merge_docx_try E files (mkLocals w [] [])).1
  | inr _ => new_files_deleted w (world (merge_docx_try E files (mkLocals w [] [])).1)
  end.
Proof.
  intros Hat Hrel.
  assert (new_files_tracked w (mkLocals w [] [])) as H0.
  { split; [exists []; split; [reflexivity|]|]; intros p Hp; by apply elem_of_nil in Hp. }
  assert (new_files_deleted w w) as H1.
  { exists []. split; [reflexivity|]. intros p Hp. by apply elem_of_nil in Hp. }
  destruct (contains "template" files) eqn:Ht;
    [|rewrite merge_docx_try_missing by (by left); exact H1].
  destruct (contains "content_files[]" files) eqn:Hc;
    [|rewrite merge_docx_try_missing by (by right); exact H1].
  apply contains_getlist in Ht.
  destruct (getlist "template" files) as [|tf rest] eqn:Hg; [done|].
  rewrite (merge_docx_try_present E files _ tf rest Hg Hc).
  destruct (Py.truthy (filename tf)); [|exact H1]. cbn [negb].
  destruct (allowed_file (filename tf)); [|exact H1]. cbn [negb].
  by apply save_and_merge_files.
Qed.

(** C1, as amended: provided that no removal fails and that no write fails
    after it has created its file, when the handler returns (with a
    success, a validation failure or the answer to an exception) every
    file written during the request has been deleted from disk. *)
Theorem temp_files_deleted E files w :
  reliable_unlink E -> atomic_writes E ->
  new_files_deleted w (merge_docx E files w).1.
Proof.
  intros Hrel Hat. pose proof (merge_docx_try_files E files w Hat Hrel) as H.
  unfold merge_docx.
  destruct (merge_docx_try E files (mkLocals w [] [])) as [s [e|resp]]; cbn [fst snd] in *.
  - unfold try_except.
    pose proof (cleanup_deletes_new E w s Hrel H) as Hd. unfold tracked in Hd.
    by destruct (cleanup_files E _ (world s)) as [w' [e'|[]]].
  - exact H.
Qed.

Lemma temp_files_deleted_witness :
  reliable_unlink Sample.env /\ atomic_writes Sample.env /\
  new_files_deleted Sample.empty (merge_docx Sample.env Sample.three_files Sample.empty).1.
Proof.
  assert (reliable_unlink Sample.env) as H1 by (intros p; reflexivity).
  assert (atomic_writes Sample.env) as H2 by (intros p e _; reflexivity).
  split; [exact H1|]. split; [exact H2|].
  exact (temp_files_deleted Sample.env Sample.three_files Sample.empty H1 H2).
Defined.

(** C1 as stated fails when a removal fails: [cleanup_files] swallows the
    error and the handler answers while the files are still on disk. *)
Lemma failed_removal_leaves_files :
  let r := merge_docx Sample.env_no_unlink Sample.one_file Sample.empty in
  status_of r.2 = 200 /\
  "temp_uploads/20260102030405000000_cover.docx" ∈ written r.1 /\
  fs r.1 !! "temp_uploads/20260102030405000000_cover.docx" =
    Some (File (Docx Sample.cover)).
Proof.
  cbv zeta. split; [vm_compute; reflexivity|]. split.
  - vm_compute. do 2 right. left.
  - vm_compute. reflexivity.
Qed.

(** ** The loop, when it succeeds *)

Lemma merge_one_ok E tp cf s s' :
  merge_one E tp cf s = (s', inr tt) ->
  (allowed_file (filename cf) = false /\ s' = s) \/
  (allowed_file (filename cf) = true /\
   let cp := upload_path (clock E (ticks (world s))) (filename cf) in
   let name := out_basename (filename cf) in
   let out := merged_path (clock E (S (ticks (world s)))) name in
   let w2 := wrote (tick (world s)) cp (stream cf) 0 in
   exists T C,
     fs w2 !! tp = Some (File (Docx T)) /\ stream cf = Docx C /\
     s' = mkLocals (wrote w2 out (Docx (merged_doc T C)) 1)
            (uploaded_paths s ++ [cp]) (merged_paths s ++ [mkMergeResult name out])).
Proof.
  intros Hrun. destruct (allowed_file (filename cf)) eqn:Hal.
  - right. split; [reflexivity|].
    pose proof (merge_one_cases E tp cf s Hal) as Hc. cbv zeta in *. rewrite Hrun in Hc.
    destruct Hc as [[e H]|[(e & _ & _ & H)|[(e & w' & H & _)|
                   [(e & _ & _ & H)|(T & C & HT & HC & H)]]]];
      try discriminate H.
    exists T, C. split; [exact HT|]. split; [exact HC|]. congruence.
  - left. rewrite merge_one_skip in Hrun by exact Hal. split; congruence.
Qed.

Lemma merge_each_names E tp cfs s s' :
  merge_each E tp cfs s = (s', inr tt) ->
  map m_filename (merged_paths s') = map m_filename (merged_paths s) ++ output_names cfs.
Proof.
  unfold output_names. revert s. induction cfs as [|cf cfs IH]; intros s Hrun.
  - cbn in Hrun. unfold ret in Hrun. injection Hrun as <-. by rewrite app_nil_r.
  - cbn [merge_each] in Hrun. unfold bind in Hrun.
    destruct (merge_one E tp cf s) as [s1 [e|[]]] eqn:H1; [discriminate Hrun|].
    rewrite (IH s1 Hrun), filter_cons.
    destruct (merge_one_ok E tp cf s s1 H1) as [[Hal ->]|[Hal (T & C & _ & _ & ->)]];
      rewrite Hal.
    + by rewrite decide_False.
    + rewrite decide_True by done. cbn [merged_paths map].
      rewrite map_app. cbn [map m_filename]. by rewrite <- app_assoc.
Qed.

Lemma merged_on_disk_step P s cp c out d' name up :
  merged_on_disk P s ->
  (exists t n, cp = upload_path t n) ->
  (exists t o, out = merged_path t o) ->
  P d' ->
  merged_on_disk P
    (mkLocals (wrote (wrote (tick (world s)) cp c 0) out (Docx d') 1) up
       (merged_paths s ++ [mkMergeResult name out])).
Proof.
  intros Hs (t & n & ->) Hout Hd m. cbn [merged_paths world wrote fs tick].
  rewrite elem_of_app, list_elem_of_singleton. intros [Hm| ->].
  - destruct (Hs m Hm) as [(t' & o' & Hshape) (d & Hd' & Hl)]. split; [eauto|].
    destruct (decide (out = m_path m)) as [->|Hne].
    + exists d'. by rewrite lookup_insert_eq.
    + exists d. split; [exact Hd'|]. rewrite lookup_insert_ne by exact Hne.
      rewrite lookup_insert_ne; [exact Hl|].
      rewrite Hshape. apply upload_path_not_merged.
  - cbn [m_path]. split; [exact Hout|]. exists d'. by rewrite lookup_insert_eq.
Qed.

Lemma merge_each_docs E tp cfs s s' :
  merged_on_disk (fun _ => True) s ->
  merge_each E tp cfs s = (s', inr tt) ->
  merged_on_disk (fun _ => True) s'.
Proof.
  apply (merge_each_ok_inv E tp cfs (merged_on_disk (fun _ => True))).
  intros cf x x' _ Hx H1.
  destruct (merge_one_ok E tp cf x x' H1) as [[_ ->]|[_ (T & C & _ & _ & ->)]];
    [exact Hx|].
  apply merged_on_disk_step; eauto.
Qed.

Lemma on_disk_docs w ms cs :
  Forall2 (on_disk w) ms cs ->
  (forall m, m ∈ ms -> exists d, fs w !! m_path m = Some (File (Docx d))) ->
  exists docs, cs = map Docx docs /\ length docs = length ms.
Proof.
  induction 1 as [|m c ms cs Hmc _ IH]; intros Hd.
  - by exists [].
  - destruct IH as (docs & -> & Hlen). { intros m' Hm'. apply Hd. by right. }
    destruct (Hd m ltac:(left)) as [d Hl]. unfold on_disk in Hmc.
    rewrite Hl in Hmc. injection Hmc as <-.
    exists (d :: docs). split; [reflexivity|]. cbn. by rewrite Hlen.
Qed.

Lemma merge_docx_try_ok E files w s resp :
  merge_docx_try E files (mkLocals w [] []) = (s, inr resp) ->
  status_of resp = 400 \/
  exists tf rest w1 s2 cs,
    getlist "template" files = tf :: rest /\
    merge_each E (upload_path (clock E (ticks w)) (filename tf))
      (getlist "content_files[]" files)
      (mkLocals w1 [upload_path (clock E (ticks w)) (filename tf)] []) = (s2, inr tt) /\
    Forall2 (on_disk (world s2)) (merged_paths s2) cs /\
    resp = package (merged_paths s2) cs.
Proof.
  destruct (contains "template" files) eqn:Ht;
    [|rewrite merge_docx_try_missing by (by left); intros [= _ <-]; by left].
  destruct (contains "content_files[]" files) eqn:Hc;
    [|rewrite merge_docx_try_missing by (by right); intros [= _ <-]; by left].
  apply contains_getlist in Ht.
  destruct (getlist "template" files) as [|tf rest] eqn:Hg; [done|].
  rewrite (merge_docx_try_present E files _ tf rest Hg Hc).
  destruct (Py.truthy (filename tf)); [|intros [= _ <-]; by left]. cbn [negb].
  destruct (allowed_file (filename tf)); [|intros [= _ <-]; by left]. cbn [negb].
  rewrite save_and_merge_run. cbn [world uploaded_paths merged_paths app].
  destruct (write_file E _ (stream tf) (tick w)) as [w1 [e|[]]]; [discriminate|].
  unfold bind.
  destruct (merge_each E _ (getlist "content_files[]" files) _) as [s2 [e|[]]] eqn:Hloop;
    [discriminate|].
  destruct (respond_cases E s2) as [(e & _ & ->)|(cs & Hcs & ->)]; [discriminate|].
  intros [= _ <-]. right. exists tf, rest, w1, s2, cs. by repeat split.
Qed.

(** ** The input files of a merge (C10) *)


Lemma page_breaks_cover (T : document) :
  page_breaks (add_cover_break T) = page_breaks T + 1.
Proof.
  destruct (body_split (body T)) as [(pre & rs & post & Hb & Hpost)|Hall].
  - rewrite (add_cover_break_last T pre rs post Hb Hpost). unfold page_breaks.
    rewrite Hb. cbn [body]. rewrite !sum_list_with_app. cbn [sum_list_with block_breaks].
    rewrite sum_list_with_app. cbn. lia.
  - rewrite add_cover_break_none by (by apply par_positions_tables). unfold page_breaks.
    cbn [body]. rewrite sum_list_with_app. cbn. lia.
Qed.


Lemma upload_path_explicit t name :
  upload_path t name = "temp_uploads/" +:+ strftime t +:+ "_" +:+ secure_filename name.
Proof.
  destruct (strftime_head t) as (d & rest & Ht & Hd).
  unfold upload_path, path_join. rewrite Ht, app_cons.
  cbn [Py.startswith]. destruct (decide _) as [Heq|_]; [|reflexivity].
  rewrite <- Heq in Hd. discriminate.
Qed.

Ltac string_norm H :=
  repeat first [rewrite app_assoc_s in H | rewrite app_empty_l in H | rewrite app_cons in H].

Lemma upload_path_inj t name t' name' :
  upload_path t name = upload_path t' name' ->
  secure_filename name = secure_filename name'.
Proof.
  rewrite !upload_path_explicit. unfold strftime. cbn [zfill]. intros H.
  string_norm H. injection H. intros. assumption.
Qed.


(** * Further properties *)

(** ** The extension check *)

Lemma endswith_lower_inv f suf :
  Py.endswith (Py.lower f) suf = true ->
  exists stem ext, f = stem +:+ ext /\ Py.lower ext = suf.
Proof.
  induction f as [|c f IH].
  - cbn [Py.lower Py.endswith]. destruct (decide _) as [<-|]; [|discriminate].
    by exists "", "".
  - cbn [Py.lower Py.endswith]. destruct (decide _) as [<-|].
    + intros _. by exists "", (String c f).
    + intros H. destruct (IH H) as (stem & ext & -> & Hext).
      by exists (String c stem), ext.
Qed.

(** [allowed_file] accepts exactly the names that end in an extension whose
    lower-case form is [.docx]; in particular it rejects the empty name and
    every name of fewer than five characters. *)
Theorem allowed_file_iff f :
  allowed_file f = true <->
  exists stem ext, f = stem +:+ ext /\ Py.lower ext = ".docx".
Proof.
  unfold allowed_file. rewrite andb_true_iff. split.
  - intros [_ H]. by apply endswith_lower_inv.
  - intros (stem & ext & -> & Hext). rewrite lower_app, Hext, endswith_app.
    split; [|reflexivity]. destruct ext; [discriminate Hext|]. by destruct stem.
Qed.

(** ** More on [cleanup_files] *)

Lemma under_false_ne p q : under p q = false -> q <> p.
Proof.
  unfold under. intros [H _]%orb_false_iff. by apply bool_decide_eq_false in H.
Qed.

Lemma cleanup_step E p rest w :
  exists w1,
    cleanup_files E (p :: rest) w = cleanup_files E rest w1 /\
    (forall q, under p q = false -> fs w1 !! q = fs w !! q) /\
    (fs w !! p <> Some Dir -> forall q, q <> p -> fs w1 !! q = fs w !! q) /\
    (forall q, fs w1 !! q = fs w !! q \/ fs w1 !! q = None) /\
    (Py.truthy p = false \/ fault E (IoUnlink p) <> None \/ fs w !! p = None -> w1 = w) /\
    (fault E (IoUnlink p) = None -> Py.truthy p = true -> fs w1 !! p = None).
Proof.
  cbn [cleanup_files]. munfold.
  destruct (Py.truthy p) eqn:Hp; simpl.
  2:{ exists w. repeat split; auto. discriminate. }
  destruct (fs w !! p) as [[c|]|] eqn:Hl; simpl;
    destruct (fault E (IoUnlink p)) eqn:Hf; simpl; rewrite ?Hl, ?Hf; simpl.
  - exists w. repeat split; auto. discriminate.
  - eexists. split; [reflexivity|]. cbn [fs]. repeat split.
    + intros q Hq. apply under_false_ne in Hq. by rewrite lookup_delete_ne.
    + intros _ q Hq. by rewrite lookup_delete_ne.
    + intros q. destruct (decide (p = q)) as [->|Hne].
      * right. apply lookup_delete_eq.
      * left. by rewrite lookup_delete_ne.
    + intros [H|[H|H]]; congruence.
    + intros _ _. apply lookup_delete_eq.
  - exists w. repeat split; auto. discriminate.
  - eexists. split; [reflexivity|]. cbn [fs].
    assert (forall q, under p q = false ->
              filter (fun kv : string * Node => under p kv.1 = false) (fs w) !! q = fs w !! q)
      as Hkeep.
    { intros q Hq. destruct (fs w !! q) as [x|] eqn:Hx.
      - by apply map_lookup_filter_Some_2.
      - apply map_lookup_filter_None_2. by left. }
    repeat split.
    + exact Hkeep.
    + intros H. by contradict H.
    + intros q. destruct (under p q) eqn:Hu; [right|left; by apply Hkeep].
      apply map_lookup_filter_None_2. right. intros x _. cbn [fst]. by rewrite Hu.
    + intros [H|[H|H]]; congruence.
    + intros _ _. apply map_lookup_filter_None_2. right. intros x _. cbn [fst].
      unfold under. by rewrite bool_decide_eq_true_2.
  - exists w. repeat split; auto.
  - exists w. repeat split; auto.
Qed.

Lemma cleanup_files_monotone E paths w q :
  fs (cleanup_files E paths w).1 !! q = fs w !! q \/
  fs (cleanup_files E paths w).1 !! q = None.
Proof.
  revert w. induction paths as [|p rest IH]; intros w; [by left|].
  destruct (cleanup_step E p rest w) as (w1 & -> & _ & _ & Hmono & _).
  destruct (IH w1) as [H|H]; [|by right]. rewrite H. apply Hmono.
Qed.

Lemma cleanup_files_nothing_to_do E paths w :
  (forall p, p ∈ paths ->
     Py.truthy p = false \/ fault E (IoUnlink p) <> None \/ fs w !! p = None) ->
  cleanup_files E paths w = (w, inr tt).
Proof.
  induction paths as [|p rest IH]; intros H; [reflexivity|].
  destruct (cleanup_step E p rest w) as (w1 & -> & _ & _ & _ & Hnoop & _).
  rewrite (Hnoop (H p ltac:(left))). apply IH. intros p' Hp'. apply H. by right.
Qed.

Lemma cleanup_files_settled E paths w p :
  p ∈ paths ->
  Py.truthy p = false \/ fault E (IoUnlink p) <> None \/
  fs (cleanup_files E paths w).1 !! p = None.
Proof.
  revert w. induction paths as [|p' rest IH]; intros w Hp; [by apply elem_of_nil in Hp|].
  destruct (cleanup_step E p' rest w) as (w1 & -> & _ & _ & _ & _ & Hdel).
  apply elem_of_cons in Hp as [->|Hp]; [|by apply IH].
  destruct (Py.truthy p') eqn:Ht; [|by left].
  destruct (fault E (IoUnlink p')) eqn:Hf; [right; left; discriminate|].
  do 2 right. destruct (cleanup_files_monotone E rest w1 p') as [H|H]; [|exact H].
  rewrite H. by apply Hdel.
Qed.

(** ** Temporary names *)

Lemma zfill_length w n : String.length (zfill w n) = w.
Proof.
  revert n. induction w as [|w IH]; intros n; [reflexivity|].
  cbn [zfill]. rewrite length_app_s, IH. cbn. lia.
Qed.

Lemma strftime_length t : String.length (strftime t) = 20.
Proof. unfold strftime. by rewrite !length_app_s, !zfill_length. Qed.

Lemma app_inj_len a b c d :
  String.length a = String.length c -> a +:+ b = c +:+ d -> a = c /\ b = d.
Proof.
  revert c. induction a as [|x a IH]; intros [|y c] Hlen Heq; try discriminate Hlen.
  - by rewrite !app_empty_l in Heq.
  - rewrite !app_cons in Heq. injection Heq as -> Heq. injection Hlen as Hlen.
    destruct (IH c Hlen Heq) as [-> ->]. done.
Qed.

Lemma merged_path_explicit t name :
  merged_path t name =
  "temp_uploads/merged_" +:+ strftime t +:+ "_" +:+ secure_filename name.
Proof. reflexivity. Qed.

(** Two uploads are stored at the same path exactly when their time stamps
    print alike and their sanitised names are equal, and likewise for two
    merged outputs: the time stamp is all that keeps equal names apart. *)
Theorem temp_paths_collide_iff t name t' name' :
  (upload_path t name = upload_path t' name' <->
   strftime t = strftime t' /\ secure_filename name = secure_filename name') /\
  (merged_path t name = merged_path t' name' <->
   strftime t = strftime t' /\ secure_filename name = secure_filename name').
Proof.
  assert (forall pre x y, pre +:+ strftime t +:+ "_" +:+ x =
                          pre +:+ strftime t' +:+ "_" +:+ y ->
                          strftime t = strftime t' /\ x = y) as Hinj.
  { intros pre x y H. apply app_inj_len in H as [_ H]; [|reflexivity].
    apply app_inj_len in H as [Ht H]; [|by rewrite !strftime_length].
    split; [exact Ht|]. rewrite !app_cons, !app_empty_l in H. by injection H. }
  split; split.
  - rewrite !upload_path_explicit. apply Hinj.
  - intros [Ht Hn]. by rewrite !upload_path_explicit, Ht, Hn.
  - rewrite !merged_path_explicit. apply Hinj.
  - intros [Ht Hn]. by rewrite !merged_path_explicit, Ht, Hn.
Qed.

(** ** Where the handler writes *)

Lemma list_ascii_app a b :
  list_ascii_of_string (a +:+ b) = list_ascii_of_string a ++ list_ascii_of_string b.
Proof. induction a as [|x a IH]; [reflexivity|]. rewrite app_cons. cbn. by rewrite IH. Qed.

Lemma plain_app a b : plain_name a -> plain_name b -> plain_name (a +:+ b).
Proof. unfold plain_name. rewrite list_ascii_app, Forall_app. by split. Qed.

Lemma filename_char_digit n : filename_char (digit n) = true.
Proof.
  unfold digit. pose proof (Nat.mod_upper_bound n 10 ltac:(lia)) as H.
  destruct (n mod 10) as [|[|[|[|[|[|[|[|[|[|k]]]]]]]]]]; try reflexivity. lia.
Qed.

Lemma plain_zfill w n : plain_name (zfill w n).
Proof.
  revert n. induction w as [|w IH]; intros n; [constructor|].
  cbn [zfill]. apply plain_app; [apply IH|].
  constructor; [apply filename_char_digit|constructor].
Qed.

Lemma plain_strftime t : plain_name (strftime t).
Proof.
  unfold strftime. do 6 (apply plain_app; [apply plain_zfill|]). apply plain_zfill.
Qed.

Lemma Forall_lstrip (P : ascii -> Prop) drop l : Forall P l -> Forall P (Py.lstrip drop l).
Proof.
  induction 1 as [|c l Hc Hl IH]; [constructor|].
  cbn [Py.lstrip]. destruct (drop c); [exact IH|by constructor].
Qed.

Lemma Forall_filter_char (f : ascii -> bool) l :
  Forall (fun c => f c = true) (filter (fun c => f c = true) l).
Proof.
  induction l as [|c l IH]; [constructor|].
  rewrite filter_cons. destruct (decide (f c = true)); [by constructor|exact IH].
Qed.

Lemma plain_secure_filename name : plain_name (secure_filename name).
Proof.
  unfold plain_name, secure_filename. rewrite list_ascii_of_string_of_list_ascii.
  unfold Py.strip. apply Forall_reverse, Forall_lstrip, Forall_reverse, Forall_lstrip.
  apply Forall_filter_char.
Qed.

Lemma plain_underscore : plain_name "_".
Proof. by repeat constructor. Qed.

Lemma upload_in_folder t name : in_upload_folder (upload_path t name).
Proof.
  exists (strftime t +:+ "_" +:+ secure_filename name). split; [apply upload_path_explicit|].
  apply plain_app; [apply plain_strftime|].
  apply plain_app; [apply plain_underscore|apply plain_secure_filename].
Qed.

Lemma merged_in_folder t name : in_upload_folder (merged_path t name).
Proof.
  exists ("merged_" +:+ strftime t +:+ "_" +:+ secure_filename name). split; [reflexivity|].
  apply plain_app; [by repeat constructor|].
  apply plain_app; [apply plain_strftime|].
  apply plain_app; [apply plain_underscore|apply plain_secure_filename].
Qed.

Lemma footprint_same P w0 s s' :
  footprint P w0 s ->
  fs (world s') = fs (world s) ->
  written (world s') = written (world s) ->
  (forall p, p ∈ tracked s' -> p ∈ tracked s) ->
  footprint P w0 s'.
Proof.
  intros (new & Hw & HP & Hfr & Hd & Htr) Hfs Hwr Hsub.
  exists new. rewrite Hfs, Hwr. repeat split; auto.
Qed.

Lemma footprint_write P w0 s s' p c :
  footprint P w0 s ->
  P p ->
  fs (world s') = <[p := File c]> (fs (world s)) ->
  written (world s') = p :: written (world s) ->
  (forall x, x ∈ tracked s' -> x ∈ tracked s \/ x = p) ->
  footprint P w0 s'.
Proof.
  intros (new & Hw & HP & Hfr & Hd & Htr) Hp Hfs Hwr Hsub.
  exists (p :: new). rewrite Hfs, Hwr, Hw. split; [reflexivity|].
  split; [by constructor|]. split; [|split].
  - intros q [Hne Hq]%not_elem_of_cons. rewrite lookup_insert_ne by done. by apply Hfr.
  - intros x Hx. destruct (decide (p = x)) as [->|Hne].
    + by rewrite lookup_insert_eq.
    + rewrite lookup_insert_ne by done. apply Hd.
      apply elem_of_cons in Hx as [->|Hx]; [done|exact Hx].
  - intros x Hx. destruct (Hsub x Hx) as [H| ->]; [right; by apply Htr|by left].
Qed.

Lemma cleanup_within E paths w (N : string -> Prop) :
  (forall p, p ∈ paths -> N p) ->
  (forall p, N p -> fs w !! p <> Some Dir) ->
  forall q, ~ N q -> fs (cleanup_files E paths w).1 !! q = fs w !! q.
Proof.
  revert w. induction paths as [|p rest IH]; intros w Hin Hd q Hq; [reflexivity|].
  destruct (cleanup_step E p rest w) as (w1 & -> & _ & Hfr & Hmono & _).
  assert (forall p', p' ∈ rest -> N p') as Hin' by (intros p' Hp'; apply Hin; by right).
  assert (forall p', N p' -> fs w1 !! p' <> Some Dir) as Hd'.
  { intros p' Hp'. destruct (Hmono p') as [-> | ->]; [by apply Hd|discriminate]. }
  rewrite (IH w1 Hin' Hd' q Hq).
  apply Hfr; [apply Hd, Hin; by left|]. intros ->. apply Hq, Hin. by left.
Qed.

Lemma footprint_cleanup E P w0 s :
  footprint P w0 s ->
  footprint_world P w0 (cleanup_files E (tracked s) (world s)).1.
Proof.
  intros (new & Hw & HP & Hfr & Hd & Htr).
  pose proof (cleanup_files_spec E (tracked s) (world s)) as H. cbv zeta in H.
  destruct H as (_ & _ & Hwr & _).
  exists new. split; [by rewrite Hwr|]. split; [exact HP|].
  intros q Hq.
  rewrite (cleanup_within E (tracked s) (world s) (fun p => p ∈ new) Htr Hd q Hq).
  by apply Hfr.
Qed.

Lemma tracked_snoc_uploaded w up mp cp x :
  x ∈ tracked (mkLocals w (up ++ [cp]) mp) ->
  x ∈ tracked (mkLocals w up mp) \/ x = cp.
Proof.
  unfold tracked. cbn [uploaded_paths merged_paths].
  rewrite !elem_of_app, list_elem_of_singleton. tauto.
Qed.

Lemma tracked_snoc_merged w up mp name out x :
  x ∈ tracked (mkLocals w up (mp ++ [mkMergeResult name out])) ->
  x ∈ tracked (mkLocals w up mp) \/ x = out.
Proof.
  unfold tracked. cbn [uploaded_paths merged_paths]. rewrite map_app. cbn [map m_path].
  rewrite !elem_of_app, list_elem_of_singleton. tauto.
Qed.

Lemma merge_one_footprint E P w0 tp cf s :
  (forall t n, P (upload_path t n)) ->
  (forall t n, P (merged_path t n)) ->
  footprint P w0 s -> footprint P w0 (merge_one E tp cf s).1.
Proof.
  intros HPu HPm Hs.
  destruct (allowed_file (filename cf)) eqn:Hal;
    [|rewrite merge_one_skip by exact Hal; exact Hs].
  pose proof (merge_one_cases E tp cf s Hal) as Hc. cbv zeta in Hc.
  set (cp := upload_path (clock E (ticks (world s))) (filename cf)) in *.
  set (out := merged_path (clock E (S (ticks (world s)))) (out_basename (filename cf))) in *.
  set (w2 := wrote (tick (world s)) cp (stream cf) 0) in *.
  assert (footprint P w0 (mkLocals w2 (uploaded_paths s ++ [cp]) (merged_paths s))) as Hmid.
  { eapply (footprint_write P w0 s _ cp (stream cf) Hs); [apply HPu|reflexivity|reflexivity|].
    intros x Hx. apply tracked_snoc_uploaded in Hx. by destruct s. }
  destruct Hc as [[e ->]|[(e & _ & _ & ->)|[(e & w' & -> & Hfs & Hw)|
                 [(e & _ & _ & ->)|(T & C & _ & _ & ->)]]]]; cbn [fst].
  - eapply (footprint_same P w0 s); [exact Hs|reflexivity|reflexivity|]. by destruct s.
  - eapply (footprint_write P w0 s _ cp (Raw "") Hs); [apply HPu|reflexivity|reflexivity|].
    intros x Hx. left. by destruct s.
  - eapply (footprint_same P w0 _ _ Hmid); [exact Hfs|exact Hw|done].
  - eapply (footprint_write P w0 _ _ out (Raw "") Hmid);
      [apply HPm|reflexivity|reflexivity|]. intros x Hx. by left.
  - eapply (footprint_write P w0 _ _ out _ Hmid); [apply HPm|reflexivity|reflexivity|].
    intros x Hx. by apply tracked_snoc_merged in Hx.
Qed.

Lemma merge_docx_try_footprint E P files w :
  (forall t n, P (upload_path t n)) ->
  (forall t n, P (merged_path t n)) ->
  match (merge_docx_try E files (mkLocals w [] [])).2 with
  | inl _ => footprint P w (merge_docx_try E files (mkLocals w [] [])).1
  | inr _ => footprint_world P w (world (merge_docx_try E files (mkLocals w [] [])).1)
  end.
Proof.
  intros HPu HPm.
  assert (footprint P w (mkLocals w [] [])) as H0.
  { exists []. split; [reflexivity|]. split; [constructor|]. split; [done|].
    split; intros p Hp; by apply elem_of_nil in Hp. }
  assert (footprint_world P w w) as H1.
  { exists []. split; [reflexivity|]. split; [constructor|done]. }
  destruct (contains "template" files) eqn:Ht;
    [|rewrite merge_docx_try_missing by (by left); exact H1].
  destruct (contains "content_files[]" files) eqn:Hc;
    [|rewrite merge_docx_try_missing by (by right); exact H1].
  apply contains_getlist in Ht.
  destruct (getlist "template" files) as [|tf rest] eqn:Hg; [done|].
  rewrite (merge_docx_try_present E files _ tf rest Hg Hc).
  destruct (Py.truthy (filename tf)); [|exact H1]. cbn [negb].
  destruct (allowed_file (filename tf)); [|exact H1]. cbn [negb].
  rewrite save_and_merge_run. cbv zeta. cbn [world uploaded_paths merged_paths app].
  set (tp := upload_path (clock E (ticks w)) (filename tf)).
  destruct (write_file_cases E tp (stream tf) (tick w))
    as [[e ->]|[(e & _ & _ & ->)|(_ & _ & ->)]]; cbn [fst snd].
  - eapply (footprint_same P w _ _ H0); [reflexivity|reflexivity|done].
  - eapply (footprint_write P w _ _ tp (Raw "") H0); [apply HPu|reflexivity|reflexivity|].
    intros x Hx. by left.
  - assert (footprint P w (mkLocals (wrote (tick w) tp (stream tf) 0) [tp] [])) as Hs1.
    { eapply (footprint_write P w _ _ tp (stream tf) H0); [apply HPu|reflexivity|reflexivity|].
      intros x Hx. by apply (tracked_snoc_uploaded _ [] []) in Hx. }
    unfold bind.
    pose proof (merge_each_state_inv E tp (getlist "content_files[]" files) (footprint P w)
                  (fun cf x _ => merge_one_footprint E P w tp cf x HPu HPm) _ Hs1) as Hs2.
    destruct (merge_each E tp _ _) as [s2 [e|[]]]; cbn [fst snd] in *; [exact Hs2|].
    destruct (respond_cases E s2) as [(e & _ & ->)|(cs & _ & ->)]; cbn [fst snd world].
    + exact Hs2.
    + by apply footprint_cleanup.
Qed.

Lemma merge_docx_footprint E P files w :
  (forall t n, P (upload_path t n)) ->
  (forall t n, P (merged_path t n)) ->
  footprint_world P w (merge_docx E files w).1.
Proof.
  intros HPu HPm. pose proof (merge_docx_try_footprint E P files w HPu HPm) as H.
  unfold merge_docx.
  destruct (merge_docx_try E files (mkLocals w [] [])) as [s [e|resp]]; cbn [fst snd] in *.
  - unfold try_except. pose proof (footprint_cleanup E P w s H) as Hc. unfold tracked in Hc.
    by destruct (cleanup_files E _ (world s)) as [w' [e'|[]]].
  - exact H.
Qed.

(** The handler changes the disk at the paths it wrote during the request
    and nowhere else, on every path through it and whatever fails: a file
    that the request did not write is neither modified nor deleted. *)
Theorem request_touches_own_files_only E files w :
  exists new,
    written (merge_docx E files w).1 = new ++ written w /\
    forall q, q ∉ new -> fs (merge_docx E files w).1 !! q = fs w !! q.
Proof.
  destruct (merge_docx_footprint E (fun _ => True) files w) as (new & Hw & _ & Hfr); [done..|].
  by exists new.
Qed.

(** Every file that a request writes lies directly in the upload folder:
    its path is [temp_uploads/] followed by a name made of letters,
    digits, [_], [.] and [-] only, so without any path separator, whatever
    the file names sent by the client. *)
Theorem request_writes_in_upload_folder E files w :
  exists new,
    written (merge_docx E files w).1 = new ++ written w /\
    Forall in_upload_folder new.
Proof.
  destruct (merge_docx_footprint E in_upload_folder files w) as (new & Hw & HP & _).
  - apply upload_in_folder.
  - apply merged_in_folder.
  - by exists new.
Qed.

(** ** The possible responses *)

Lemma package_shape ms cs :
  package ms cs = jsonify_error "No valid .docx content files uploaded" 400 \/
  (exists c name, package ms cs = SendFile (FileBytes c) name DOCX_MIME) \/
  (exists entries,
     package ms cs = SendFile (ZipBytes entries) "merged_documents.zip" "application/zip").
Proof.
  destruct ms as [|m [|m' ms]]; [by left| |right; right; cbn; by eauto].
  destruct cs as [|c [|c' cs]]; right; [right|left|right]; cbn; by eauto.
Qed.

Lemma merge_docx_try_shape E files s0 s resp :
  merge_docx_try E files s0 = (s, inr resp) ->
  resp = jsonify_error "Missing files" 400 \/
  resp = jsonify_error "No files provided" 400 \/
  resp = jsonify_error "Template must be a .docx file" 400 \/
  exists ms cs, resp = package ms cs.
Proof.
  destruct (contains "template" files) eqn:Ht;
    [|rewrite merge_docx_try_missing by (by left); intros [= _ <-]; by left].
  destruct (contains "content_files[]" files) eqn:Hc;
    [|rewrite merge_docx_try_missing by (by right); intros [= _ <-]; by left].
  apply contains_getlist in Ht.
  destruct (getlist "template" files) as [|tf rest] eqn:Hg; [done|].
  rewrite (merge_docx_try_present E files _ tf rest Hg Hc).
  destruct (Py.truthy (filename tf)); [|intros [= _ <-]; right; by left]. cbn [negb].
  destruct (allowed_file (filename tf)); [|intros [= _ <-]; right; right; by left].
  cbn [negb]. rewrite save_and_merge_run. cbv zeta.
  destruct (write_file E _ (stream tf) (tick (world s0))) as [w1 [e|[]]]; [discriminate|].
  unfold bind.
  destruct (merge_each E _ (getlist "content_files[]" files) _) as [s2 [e|[]]];
    [discriminate|].
  destruct (respond_cases E s2) as [(e & _ & ->)|(cs & _ & ->)]; [discriminate|].
  intros [= _ <-]. do 3 right. eauto.
Qed.

(** The handler only ever answers with one of four fixed 400 messages, a
    500 carrying the message of an exception, a single document of the
    .docx MIME type, or the archive [merged_documents.zip]. *)
Theorem response_shapes E files w :
  let r := (merge_docx E files w).2 in
  (exists msg,
     msg ∈ ["Missing files"; "No files provided"; "Template must be a .docx file";
            "No valid .docx content files uploaded"] /\
     r = jsonify_error msg 400) \/
  (exists e, r = jsonify_error e 500) \/
  (exists c name, r = SendFile (FileBytes c) name DOCX_MIME) \/
  (exists entries, r = SendFile (ZipBytes entries) "merged_documents.zip" "application/zip").
Proof.
  cbv zeta. unfold merge_docx.
  destruct (merge_docx_try E files (mkLocals w [] [])) as [s [e|resp]] eqn:Htry.
  - destruct (try_except _ _ _) as [w' ?]. cbn [snd]. right. left. by exists e.
  - cbn [snd]. destruct (merge_docx_try_shape E files _ s resp Htry)
      as [-> |[-> |[-> |(ms & cs & ->)]]].
    + left. eexists. split; [|reflexivity]. by left.
    + left. eexists. split; [|reflexivity]. right. by left.
    + left. eexists. split; [|reflexivity]. do 2 right. by left.
    + destruct (package_shape ms cs) as [-> |[H|H]].
      * left. eexists. split; [|reflexivity]. do 3 right. by left.
      * right. right. by left.
      * right. right. by right.
Qed.

(** ** Requests that go through *)

Lemma upload_path_stamp t name t' name' :
  upload_path t name = upload_path t' name' -> strftime t = strftime t'.
Proof.
  rewrite !upload_path_explicit. intros H.
  apply app_inj_len in H as [_ H]; [|reflexivity].
  by apply app_inj_len in H as [Ht _]; [|by rewrite !strftime_length].
Qed.

Lemma merged_path_stamp t name t' name' :
  merged_path t name = merged_path t' name' -> strftime t = strftime t'.
Proof.
  rewrite !merged_path_explicit. intros H.
  apply app_inj_len in H as [_ H]; [|reflexivity].
  by apply app_inj_len in H as [Ht _]; [|by rewrite !strftime_length].
Qed.

Lemma write_file_ok E p c w :
  fault E (IoWrite p) = None -> fs w !! p <> Some Dir ->
  write_file E p c w = (wrote w p c 0, inr tt).
Proof.
  intros Hf Hd. unfold write_file. rewrite Hf. by destruct (fs w !! p) as [[?|]|].
Qed.

Lemma read_file_ok E p w c :
  fault E (IoRead p) = None -> fs w !! p = Some (File c) ->
  read_file E p w = (w, inr c).
Proof. intros Hf Hl. unfold read_file. by rewrite Hf, Hl. Qed.

Lemma write_zip_ok E ms zf w cs :
  no_faults E ->
  Forall2 (on_disk w) ms cs ->
  write_zip E ms zf w = (w, inr (zf ++ zip (map m_filename ms) cs)).
Proof.
  intros Hnf H. revert zf. induction H as [|m c ms cs Hm _ IH]; intros zf.
  - cbn. unfold ret. by rewrite app_nil_r.
  - cbn [write_zip]. unfold bind. rewrite (read_file_ok E _ w c) by (try apply Hnf; exact Hm).
    rewrite IH. cbn [map zip zip_with]. by rewrite <- app_assoc.
Qed.

Lemma respond_ok E s cs :
  no_faults E ->
  Forall2 (on_disk (world s)) (merged_paths s) cs ->
  respond E s =
  (mkLocals (cleanup_files E (tracked s) (world s)).1 (uploaded_paths s) (merged_paths s),
   inr (package (merged_paths s) cs)).
Proof.
  intros Hnf Hcs. unfold respond. rewrite !bind_gets. unfold tracked.
  destruct s as [w up ms]. cbn [world uploaded_paths merged_paths] in *.
  destruct Hcs as [|m c ms cs Hm Hcs].
  - rewrite bind_cleanup. cbn [map]. by rewrite app_nil_r.
  - destruct Hcs as [|m' c' ms cs Hm' Hcs].
    + rewrite bind_lift. cbn [world uploaded_paths merged_paths].
      rewrite (read_file_ok E _ w c) by (try apply Hnf; exact Hm).
      by rewrite bind_cleanup.
    + rewrite bind_lift. cbn [world uploaded_paths merged_paths].
      rewrite (write_zip_ok E _ [] w (c :: c' :: cs)) by (try done; by repeat constructor).
      by rewrite bind_cleanup.
Qed.

Lemma package_download ms docs :
  ms <> [] -> length ms = length docs ->
  package ms (map Docx docs) = download (map m_filename ms) docs.
Proof.
  intros Hne Hlen. destruct ms as [|m [|m' ms]]; [done| |].
  - by destruct docs as [|d [|d' docs]].
  - by destruct docs as [|d [|d' docs]].
Qed.

Lemma merged_on_disk_docs s :
  merged_on_disk (fun _ => True) s ->
  exists docs, Forall2 (on_disk (world s)) (merged_paths s) (map Docx docs).
Proof.
  unfold merged_on_disk. generalize (merged_paths s) as ms.
  induction ms as [|m ms IH]; intros H; [by exists []|].
  destruct IH as [docs Hdocs]. { intros m' Hm'. apply H. by right. }
  destruct (H m ltac:(left)) as [_ (d & _ & Hl)].
  exists (d :: docs). by constructor.
Qed.

(** ** What the cover break keeps *)

Lemma doc_text_cover (T : document) : doc_text (add_cover_break T) = doc_text T.
Proof.
  destruct (body_split (body T)) as [(pre & rs & post & Hb & Hpost)|Hall].
  - rewrite (add_cover_break_last T pre rs post Hb Hpost). unfold doc_text.
    rewrite Hb. cbn [body]. rewrite !map_app, !concat_app. cbn [map concat block_text].
    rewrite map_app, concat_app. cbn. by rewrite !app_nil_r.
  - rewrite add_cover_break_none by (by apply par_positions_tables). unfold doc_text.
    cbn [body]. rewrite map_app, concat_app. cbn. by rewrite app_nil_r.
Qed.

(** ** The download name *)

Lemma plain_take n s : plain_name s -> plain_name (Py.take n s).
Proof.
  unfold plain_name. revert n. induction s as [|c s IH]; intros [|n] H; try constructor.
  - cbn in H. by inversion H.
  - apply IH. cbn in H. by inversion H.
Qed.

(** Whatever file name the client sends, the download name is made of
    letters, digits, [_], [.] and [-] only, ends in [_with_cover.docx] and
    is itself accepted by the extension check. *)
Theorem out_basename_plain f :
  plain_name (out_basename f) /\
  Py.endswith (out_basename f) "_with_cover.docx" = true /\
  allowed_file (out_basename f) = true.
Proof.
  unfold out_basename. split; [|split].
  - apply plain_app; [|by repeat constructor].
    unfold Py.rsplit1_head. destruct (Py.rfind _ _).
    + apply plain_take, plain_secure_filename.
    + apply plain_secure_filename.
  - apply endswith_app.
  - unfold allowed_file. apply andb_true_iff. split.
    + by destruct (Py.rsplit1_head _ _).
    + rewrite lower_app. change (Py.lower "_with_cover.docx") with ("_with_cover" +:+ ".docx").
      rewrite <- app_assoc_s. apply endswith_app.
Qed.

(** ** More on the loop and on failures *)

(** Errors are per path: [cleanup_files] removes every listed path whose
    own removal does not fail, whatever happens to the other paths. *)
Theorem cleanup_files_removes E paths w p :
  p ∈ paths -> Py.truthy p = true -> fault E (IoUnlink p) = None ->
  fs (cleanup_files E paths w).1 !! p = None.
Proof.
  intros Hp Ht Hf. destruct (cleanup_files_settled E paths w p Hp) as [H|[H|H]];
    [congruence|done|exact H].
Qed.

Lemma cleanup_files_removes_witness :
  ("t.docx" ∈ ["missing"; "t.docx"] /\ Py.truthy "t.docx" = true /\
   fault Sample.env (IoUnlink "t.docx") = None) /\
  fs (cleanup_files Sample.env ["missing"; "t.docx"] Sample.disk).1 !! "t.docx" = None.
Proof.
  assert ("t.docx" ∈ ["missing"; "t.docx"]) as H by (right; left).
  split; [by repeat split|].
  exact (cleanup_files_removes Sample.env _ Sample.disk "t.docx" H eq_refl eq_refl).
Defined.

Lemma merge_each_ok_docs E tp cfs s s' cf :
  merge_each E tp cfs s = (s', inr tt) ->
  cf ∈ cfs -> allowed_file (filename cf) = true ->
  exists C, stream cf = Docx C.
Proof.
  revert s. induction cfs as [|cf' cfs IH]; intros s Hrun Hin Hal;
    [by apply elem_of_nil in Hin|].
  cbn [merge_each] in Hrun. unfold bind in Hrun.
  destruct (merge_one E tp cf' s) as [s1 [e|[]]] eqn:H1; [discriminate Hrun|].
  apply elem_of_cons in Hin as [->|Hin]; [|by eapply IH].
  destruct (merge_one_ok E tp cf' s s1 H1) as [[Hno _]|[_ (T & C & _ & HC & _)]];
    [congruence|by exists C].
Qed.

(** No partial result: when the template passes validation and one
    accepted content file is not a document, the request is answered 500,
    whatever the other content files are and whatever the environment
    does. *)
Theorem corrupt_content_gives_500 E files w tf rest cf :
  getlist "template" files = tf :: rest ->
  allowed_file (filename tf) = true ->
  cf ∈ getlist "content_files[]" files ->
  allowed_file (filename cf) = true ->
  (forall C, stream cf <> Docx C) ->
  exists e, (merge_docx E files w).2 = jsonify_error e 500.
Proof.
  intros Hg Hal Hin Hcf Hraw.
  assert (contains "content_files[]" files = true) as Hc.
  { apply contains_getlist. intros Hnil. rewrite Hnil in Hin. by apply elem_of_nil in Hin. }
  unfold merge_docx. rewrite (merge_docx_try_present E files _ tf rest Hg Hc).
  rewrite (allowed_file_truthy _ Hal), Hal. cbn [negb].
  rewrite save_and_merge_run. cbv zeta.
  destruct (write_file E _ (stream tf) _) as [w1 [e|[]]].
  { destruct (try_except _ _ _) as [w' ?]. by exists e. }
  unfold bind.
  destruct (merge_each E _ (getlist "content_files[]" files) _) as [s2 [e|[]]] eqn:Hrun.
  { destruct (try_except _ _ _) as [w' ?]. by exists e. }
  destruct (merge_each_ok_docs E _ _ _ _ cf Hrun Hin Hcf) as [C HC].
  by destruct (Hraw C).
Qed.

Lemma corrupt_content_gives_500_witness :
  (getlist "template" Sample.corrupt_file = [mkFileStorage "cover.docx" (Docx Sample.cover)] /\
   allowed_file "cover.docx" = true /\
   mkFileStorage "broken.docx" (Raw "not a zip archive")
     ∈ getlist "content_files[]" Sample.corrupt_file /\
   allowed_file "broken.docx" = true /\
   (forall C, Raw "not a zip archive" <> Docx C)) /\
  exists e, (merge_docx Sample.env Sample.corrupt_file Sample.empty).2 = jsonify_error e 500.
Proof.
  assert (mkFileStorage "broken.docx" (Raw "not a zip archive")
            ∈ getlist "content_files[]" Sample.corrupt_file) as Hin
    by (vm_compute; right; left).
  assert (forall C, Raw "not a zip archive" <> Docx C) as Hraw by (intros C; discriminate).
  split; [by repeat split|].
  exact (corrupt_content_gives_500 Sample.env Sample.corrupt_file Sample.empty
           (mkFileStorage "cover.docx" (Docx Sample.cover)) []
           (mkFileStorage "broken.docx" (Raw "not a zip archive"))
           eq_refl eq_refl Hin eq_refl Hraw).
Defined.

(** * Properties of whole requests *)

(** ** What the loop keeps of the template (C10) *)




(** ** The page break and a template that ends with a table (C5) *)

(** C5 fails on the code for a template whose last paragraph is followed
    by a table: the page break is put in that paragraph, so before the
    table, and the content comes straight after the table, not on a new
    page. With a template that ends with its last paragraph the content
    does begin on a new page. *)
Lemma page_break_before_trailing_table :
  let out := "temp_uploads/merged_20260102030405000000_o.docx" in
  merge_documents_properly Sample.env "t.docx" "c.docx" "o.docx" Sample.disk =
    (Sample.first_merge.1, inr out) /\
  fs Sample.first_merge.1 !! out =
    Some (File (Docx (Doc [Par [[Text "title"]];
                           Par [[Text "author"]; [Break PAGE]];
                           Tbl "logo";
                           Par [[Text "report"]]] "letterhead styles"))) /\
  body (merged_doc Sample.letterhead Sample.report) =
    body (add_cover_break Sample.letterhead) ++ body Sample.report /\
  content_on_new_page (body (add_cover_break Sample.letterhead)) = false /\
  content_on_new_page (body (add_cover_break Sample.cover)) = true.
Proof. vm_compute. repeat split. Qed.

(** ** Exceptions (C6) *)

(** C6: whatever exception [e] leaves the body of the [try], the handler
    answers 500 with the body [{"error": e}], after [cleanup_files] has run
    on every path tracked at that point: each tracked path whose removal
    does not fail is gone when the response is returned, every other path
    is as the exception left it, and nothing is written. And
    [cleanup_files] never raises, whatever the paths, the state of the disk
    and the I/O errors. *)
Theorem exception_gives_500_after_cleanup E files w s e :
  merge_docx_try E files (mkLocals w [] []) = (s, inl e) ->
  (merge_docx E files w).2 = jsonify_error e 500 /\
  (forall p, p ∈ uploaded_paths s ++ map m_path (merged_paths s) ->
     fault E (IoUnlink p) = None -> fs (merge_docx E files w).1 !! p = None) /\
  (forall q, q ∉ uploaded_paths s ++ map m_path (merged_paths s) ->
     fs (merge_docx E files w).1 !! q = fs (world s) !! q) /\
  written (merge_docx E files w).1 = written (world s) /\
  (forall paths w1, (cleanup_files E paths w1).2 = inr tt).
Proof.
  intros Hrun.
  pose proof (merge_docx_try_footprint E (fun p => Py.truthy p = true) files w
                upload_path_nonempty merged_path_nonempty) as Hfp.
  rewrite Hrun in Hfp. cbn [fst snd] in Hfp.
  destruct Hfp as (new & Hw & Hne & _ & Hd & Htr).
  fold (tracked s). unfold merge_docx. rewrite Hrun. unfold try_except.
  pose proof (cleanup_files_spec E (tracked s) (world s)) as Hspec. cbv zeta in Hspec.
  destruct Hspec as (Hr & _ & Hwr & _).
  pose proof (fun p Hp => cleanup_files_settled E (tracked s) (world s) p Hp) as Hset.
  pose proof (cleanup_within E (tracked s) (world s) (fun p => p ∈ tracked s)
                (fun p Hp => Hp) (fun p Hp => Hd p (Htr p Hp))) as Hfr.
  unfold tracked in *.
  destruct (cleanup_files E _ (world s)) as [w' [e'|[]]]; cbn [fst snd] in *;
    [discriminate Hr|].
  split; [reflexivity|]. split; [|split; [|split]].
  - intros p Hp Hf. destruct (Hset p Hp) as [H|[H|H]]; [|done|exact H].
    rewrite Forall_forall in Hne. rewrite (Hne p (Htr p Hp)) in H. discriminate H.
  - intros q Hq. by apply Hfr.
  - exact Hwr.
  - intros paths w1. apply cleanup_files_spec.
Qed.

Lemma exception_gives_500_after_cleanup_witness :
  merge_docx_try Sample.env Sample.corrupt_file (mkLocals Sample.empty [] []) =
    (Sample.corrupt_run.1,
     inl "Package not found at 'temp_uploads/20260102030405000003_broken.docx'") /\
  (merge_docx Sample.env Sample.corrupt_file Sample.empty).2 =
    jsonify_error "Package not found at 'temp_uploads/20260102030405000003_broken.docx'" 500 /\
  uploaded_paths Sample.corrupt_run.1 ++ map m_path (merged_paths Sample.corrupt_run.1) =
    ["temp_uploads/20260102030405000000_cover.docx";
     "temp_uploads/20260102030405000001_report.docx";
     "temp_uploads/20260102030405000003_broken.docx";
     "temp_uploads/merged_20260102030405000002_report_with_cover.docx"] /\
  forall p,
    p ∈ uploaded_paths Sample.corrupt_run.1 ++ map m_path (merged_paths Sample.corrupt_run.1) ->
    fs (merge_docx Sample.env Sample.corrupt_file Sample.empty).1 !! p = None.
Proof.
  assert (merge_docx_try Sample.env Sample.corrupt_file (mkLocals Sample.empty [] []) =
          (Sample.corrupt_run.1,
           inl "Package not found at 'temp_uploads/20260102030405000003_broken.docx'")) as H
    by (vm_compute; reflexivity).
  split; [exact H|].
  destruct (exception_gives_500_after_cleanup _ _ _ _ _ H) as (Hr & Hdel & _).
  split; [exact Hr|]. split; [vm_compute; reflexivity|].
  intros p Hp. by apply Hdel.
Defined.

(** ** The response (C3) *)

Lemma merge_each_ticks E tp cfs s s' :
  merge_each E tp cfs s = (s', inr tt) ->
  ticks (world s') =
  ticks (world s) + 2 * length (filter (fun cf => allowed_file (filename cf) = true) cfs).
Proof.
  revert s. induction cfs as [|cf cfs IH]; intros s Hrun.
  - cbn in Hrun. unfold ret in Hrun. injection Hrun as <-. cbn. lia.
  - cbn [merge_each] in Hrun. unfold bind in Hrun.
    destruct (merge_one E tp cf s) as [s1 [e|[]]] eqn:H1; [discriminate Hrun|].
    rewrite (IH s1 Hrun), filter_cons.
    destruct (merge_one_ok E tp cf s s1 H1) as [[Hal ->]|[Hal (T & C & _ & _ & ->)]];
      rewrite Hal.
    + by rewrite decide_False.
    + rewrite decide_True by done. cbn. lia.
Qed.

Lemma merge_each_ok_exact E a b tp cfs :
  distinct_stamps E a b ->
  forall s s' ds k0 n0 ct,
    tp = upload_path (clock E k0) n0 ->
    a <= k0 < ticks (world s) ->
    merge_each E tp cfs s = (s', inr tt) ->
    ticks (world s') <= b ->
    fs (world s) !! tp = Some (File ct) ->
    Forall2 (stored_since E a s) (merged_paths s) ds ->
    exists Cs,
      Forall2 (fun cf C => stream cf = Docx C)
        (filter (fun cf => allowed_file (filename cf) = true) cfs) Cs /\
      (Cs <> [] -> exists T, ct = Docx T) /\
      (forall T, ct = Docx T ->
         Forall2 (stored_since E a s') (merged_paths s') (ds ++ map (merged_doc T) Cs)).
Proof.
  intros Hfresh.
  induction cfs as [|cf cfs IH]; intros s s' ds k0 n0 ct Htp Hk0 Hrun Hb Hct Hds.
  - cbn in Hrun. unfold ret in Hrun. injection Hrun as <-. exists [].
    split; [constructor|]. split; [done|]. intros T _. cbn [map]. by rewrite app_nil_r.
  - cbn [merge_each] in Hrun. unfold bind in Hrun.
    destruct (merge_one E tp cf s) as [s1 [e|[]]] eqn:H1; [discriminate Hrun|].
    rewrite filter_cons.
    pose proof (merge_each_ticks E tp cfs s1 s' Hrun) as Hticks.
    destruct (merge_one_ok E tp cf s s1 H1) as [[Hal ->]|[Hal (T' & C & HT & HC & ->)]];
      rewrite Hal.
    { rewrite decide_False by done. by apply (IH s s' ds k0 n0 ct). }
    rewrite decide_True by done.
    remember (ticks (world s)) as k eqn:Hk.
    set (cp := upload_path (clock E k) (filename cf)) in *.
    set (out := merged_path (clock E (S k)) (out_basename (filename cf))) in *.
    cbn [world wrote ticks tick] in Hticks.
    assert (cp <> tp) as Hcp.
    { rewrite Htp. intros Heq. apply upload_path_stamp, Hfresh in Heq; lia. }
    assert (out <> tp) as Hout.
    { rewrite Htp. intros Heq. symmetry in Heq. by apply upload_path_not_merged in Heq. }
    cbn [wrote fs tick] in HT. rewrite lookup_insert_ne in HT by exact Hcp.
    rewrite Hct in HT. injection HT as ->.
    pose proof (fun H2 H5 H6 =>
                  IH _ s' (ds ++ [merged_doc T' C]) k0 n0 (Docx T') Htp H2 Hrun Hb H5 H6) as H.
    destruct H as (Cs & HCs & _ & Hres).
    + cbn [world wrote ticks tick]. lia.
    + cbn [world wrote fs tick]. by rewrite !lookup_insert_ne.
    + cbn [merged_paths]. apply Forall2_app.
      * eapply Forall2_impl; [exact Hds|].
        intros m d [Hl (k' & name & Hk' & Hp)]. split.
        -- cbn [world wrote fs tick]. rewrite lookup_insert_ne.
           ++ rewrite lookup_insert_ne; [exact Hl|]. rewrite Hp. apply upload_path_not_merged.
           ++ rewrite Hp. intros Heq. apply merged_path_stamp, Hfresh in Heq; lia.
        -- exists k', name. split; [cbn [world wrote ticks tick]; lia|exact Hp].
      * constructor; [|constructor]. split.
        -- cbn [world wrote fs m_path]. by rewrite lookup_insert_eq.
        -- exists (S k), (out_basename (filename cf)).
           split; [cbn [world wrote ticks tick]; lia|reflexivity].
    + exists (C :: Cs).
      split; [by constructor|]. split; [intros _; by exists T'|].
      intros T [= <-]. specialize (Hres T' eq_refl).
      cbn [map]. by rewrite <- app_assoc in Hres.
Qed.

Lemma stored_on_disk E a s cs ds :
  Forall2 (on_disk (world s)) (merged_paths s) cs ->
  Forall2 (stored_since E a s) (merged_paths s) ds ->
  cs = map Docx ds.
Proof.
  generalize (merged_paths s) as ms. intros ms H. revert ds.
  induction H as [|m c ms cs Hm _ IH]; intros ds Hds.
  - by apply Forall2_nil_inv_l in Hds as ->.
  - apply Forall2_cons_inv_l in Hds as (d & ds' & [Hl _] & Hds' & ->).
    unfold on_disk in Hm. rewrite Hl in Hm. injection Hm as <-.
    cbn [map]. by rewrite (IH ds' Hds').
Qed.

Lemma merge_docx_try_ok_detail E files w s resp :
  merge_docx_try E files (mkLocals w [] []) = (s, inr resp) ->
  status_of resp = 400 \/
  exists tf rest s2 cs,
    getlist "template" files = tf :: rest /\
    merge_each E (upload_path (clock E (ticks w)) (filename tf))
      (getlist "content_files[]" files)
      (mkLocals (wrote (tick w) (upload_path (clock E (ticks w)) (filename tf)) (stream tf) 0)
         [upload_path (clock E (ticks w)) (filename tf)] []) = (s2, inr tt) /\
    Forall2 (on_disk (world s2)) (merged_paths s2) cs /\
    resp = package (merged_paths s2) cs /\
    ticks (world s) = ticks (world s2).
Proof.
  destruct (contains "template" files) eqn:Ht;
    [|rewrite merge_docx_try_missing by (by left); intros [= _ <-]; by left].
  destruct (contains "content_files[]" files) eqn:Hc;
    [|rewrite merge_docx_try_missing by (by right); intros [= _ <-]; by left].
  apply contains_getlist in Ht.
  destruct (getlist "template" files) as [|tf rest] eqn:Hg; [done|].
  rewrite (merge_docx_try_present E files _ tf rest Hg Hc).
  destruct (Py.truthy (filename tf)); [|intros [= _ <-]; by left]. cbn [negb].
  destruct (allowed_file (filename tf)); [|intros [= _ <-]; by left]. cbn [negb].
  rewrite save_and_merge_run. cbv zeta. cbn [world uploaded_paths merged_paths app].
  destruct (write_file_cases E (upload_path (clock E (ticks w)) (filename tf)) (stream tf) (tick w))
    as [[e ->]|[(e & _ & _ & ->)|(_ & _ & ->)]]; [discriminate|discriminate|].
  unfold bind.
  destruct (merge_each E _ (getlist "content_files[]" files) _) as [s2 [e|[]]] eqn:Hloop;
    [discriminate|].
  destruct (respond_cases E s2) as [(e & _ & ->)|(cs & Hcs & ->)]; [discriminate|].
  intros [= <- <-]. right. exists tf, rest, s2, cs.
  split; [reflexivity|]. split; [exact Hloop|]. split; [exact Hcs|]. split; [reflexivity|].
  cbn [world]. pose proof (cleanup_files_spec E (tracked s2) (world s2)) as H.
  cbv zeta in H. by destruct H as (_ & Ht' & _).
Qed.

Lemma ok_response_exact E files w w' r :
  merge_docx E files w = (w', r) ->
  status_of r = 200 ->
  distinct_stamps E (ticks w) (ticks w') ->
  exists tf rest T Cs,
    getlist "template" files = tf :: rest /\
    stream tf = Docx T /\
    Forall2 (fun cf C => stream cf = Docx C)
      (filter (fun cf => allowed_file (filename cf) = true)
         (getlist "content_files[]" files)) Cs /\
    Cs <> [] /\
    r = download (output_names (getlist "content_files[]" files)) (map (merged_doc T) Cs).
Proof.
  intros Hrun Hst Hfresh. unfold merge_docx in Hrun.
  destruct (merge_docx_try E files (mkLocals w [] [])) as [s [e|resp]] eqn:Htry.
  { destruct (try_except _ _ _) as [w'' ?]. injection Hrun as _ <-. discriminate Hst. }
  injection Hrun as <- ->.
  destruct (merge_docx_try_ok_detail E files w s r Htry)
    as [H400|(tf & rest & s2 & cs & Hg & Hloop & Hcs & -> & Hticks)]; [congruence|].
  rewrite Hticks in Hfresh.
  pose proof (merge_each_names E _ _ _ _ Hloop) as Hnames. cbn [merged_paths map app] in Hnames.
  pose proof (fun H2 H5 H6 =>
                merge_each_ok_exact E _ _ _ _ Hfresh _ s2 [] (ticks w) (filename tf) (stream tf)
                  eq_refl H2 Hloop (le_n _) H5 H6) as H.
  destruct H as (Cs & HCs & HT & Hres).
  - cbn [world wrote ticks tick]. lia.
  - cbn [world wrote fs]. by rewrite lookup_insert_eq.
  - constructor.
  - assert (merged_paths s2 <> []) as Hms.
    { intros Hnil. rewrite Hnil in Hst. discriminate Hst. }
    assert (Cs <> []) as HCne.
    { intros ->. apply Forall2_nil_inv_r in HCs. unfold output_names in Hnames.
      rewrite HCs in Hnames. by destruct (merged_paths s2). }
    destruct (HT HCne) as [T HTd]. specialize (Hres T HTd). cbn [app] in Hres.
    exists tf, rest, T, Cs. split; [exact Hg|]. split; [exact HTd|].
    split; [exact HCs|]. split; [exact HCne|].
    rewrite (stored_on_disk E _ s2 cs _ Hcs Hres), package_download, Hnames;
      [reflexivity|exact Hms|].
    exact (Forall2_length _ _ _ Hres).
Qed.




(** * Further properties of the pipeline and of the handler *)

(** ** A second cleanup *)

(** After a cleanup in which no removal of a listed path failed, a second
    cleanup of the same paths finds nothing to remove and leaves the world
    as it is, whichever removals would fail by then. *)
Theorem cleanup_files_second_pass E1 E2 paths w :
  (forall p, p ∈ paths -> fault E1 (IoUnlink p) = None) ->
  cleanup_files E2 paths (cleanup_files E1 paths w).1 =
    ((cleanup_files E1 paths w).1, inr tt).
Proof.
  intros Hok. apply cleanup_files_nothing_to_do. intros p Hp.
  destruct (cleanup_files_settled E1 paths w p Hp) as [H|[H|H]].
  - by left.
  - by destruct (H (Hok p Hp)).
  - by do 2 right.
Qed.

Lemma cleanup_files_second_pass_witness :
  (forall p, p ∈ ["t.docx"; "c.docx"] -> fault Sample.env (IoUnlink p) = None) /\
  cleanup_files Sample.env_no_unlink ["t.docx"; "c.docx"]
    (cleanup_files Sample.env ["t.docx"; "c.docx"] Sample.disk).1 =
    ((cleanup_files Sample.env ["t.docx"; "c.docx"] Sample.disk).1, inr tt) /\
  fs (cleanup_files Sample.env ["t.docx"; "c.docx"] Sample.disk).1 = ∅.
Proof.
  assert (forall p, p ∈ ["t.docx"; "c.docx"] -> fault Sample.env (IoUnlink p) = None) as H
    by (intros p _; reflexivity).
  split; [exact H|]. split.
  - exact (cleanup_files_second_pass Sample.env Sample.env_no_unlink
             ["t.docx"; "c.docx"] Sample.disk H).
  - vm_compute. reflexivity.
Defined.

(** ** When a merge succeeds and when it fails *)

(** For a template path and a content path that are not directories, a
    merge returns a path exactly when both inputs can be read and hold
    documents and the output path
    [temp_uploads/merged_<time stamp>_<sanitised name>] can be written and
    is not a directory; what it returns is then that output path, and the
    world it leaves is the one in which one clock reading was consumed and
    the composed document was written there. *)
Theorem merge_succeeds_exactly_when E t c o w :
  fs w !! t <> Some Dir -> fs w !! c <> Some Dir ->
  let out := merged_path (clock E (ticks w)) o in
  ((exists w' p, merge_documents_properly E t c o w = (w', inr p)) <->
   (fault E (IoRead t) = None /\ (exists T, fs w !! t = Some (File (Docx T))) /\
    fault E (IoRead c) = None /\ (exists C, fs w !! c = Some (File (Docx C))) /\
    fault E (IoWrite out) = None /\ fs w !! out <> Some Dir)) /\
  (forall T C w' p,
     fs w !! t = Some (File (Docx T)) -> fs w !! c = Some (File (Docx C)) ->
     merge_documents_properly E t c o w = (w', inr p) ->
     p = out /\ w' = wrote w out (Docx (merged_doc T C)) 1).
Proof.
  intros _ _ out. split; [split|].
  - intros (w' & p & Hrun). revert Hrun.
    unfold merge_documents_properly, bind, Document, datetime_now, Composer_save, ret, write_file.
    destruct (fault E (IoRead t)) eqn:Hft; [discriminate|].
    destruct (fs w !! t) as [[[T|?]|]|] eqn:Ht; try discriminate.
    destruct (fault E (IoRead c)) eqn:Hfc; [discriminate|].
    destruct (fs w !! c) as [[[C|?]|]|] eqn:Hc; try discriminate.
    cbn [fs ticks written].
    fold (merged_doc T C). fold (merged_path (clock E (ticks w)) o). fold out.
    destruct (fs w !! out) as [[?|]|] eqn:Hd; try discriminate;
      (destruct (fault E (IoWrite out)) eqn:Hfw;
       [destruct (torn E out); discriminate|]);
      intros _; repeat split; eauto.
  - intros (Hft & [T HT] & Hfc & [C HC] & Hfw & Hd).
    eexists _, _. exact (merge_documents_properly_ok E t c o w T C HT HC Hft Hfc Hfw Hd).
  - intros T C w' p HT HC Hrun.
    pose proof (merge_documents_properly_cases E t c o w) as Hcases. cbv zeta in Hcases.
    rewrite Hrun in Hcases. cbn [fst snd] in Hcases.
    destruct Hcases as [(e & He & _)|[(e & _ & _ & He)|(T' & C' & HT' & HC' & He)]];
      [discriminate He|discriminate He|].
    rewrite HT in HT'. rewrite HC in HC'. injection HT' as <-. injection HC' as <-.
    injection He as -> ->. by split.
Qed.

Lemma merge_succeeds_exactly_when_witness :
  (fs Sample.disk !! "t.docx" <> Some Dir /\ fs Sample.disk !! "c.docx" <> Some Dir) /\
  exists w' p, merge_documents_properly Sample.env "t.docx" "c.docx" "o.docx" Sample.disk =
               (w', inr p).
Proof.
  assert (fs Sample.disk !! "t.docx" <> Some Dir) as H1 by (vm_compute; discriminate).
  assert (fs Sample.disk !! "c.docx" <> Some Dir) as H2 by (vm_compute; discriminate).
  split; [by split|].
  destruct (merge_succeeds_exactly_when Sample.env "t.docx" "c.docx" "o.docx" Sample.disk H1 H2)
    as [[_ Hif] _].
  apply Hif. repeat split.
  - exists Sample.letterhead. vm_compute. reflexivity.
  - exists Sample.report. vm_compute. reflexivity.
  - vm_compute. discriminate.
Defined.

(** When the template is missing or is a file that is not a document, or
    the template is a document and the content is missing or is a file
    that is not a document, the merge raises before it reads the clock or
    writes anything: the world is left exactly as it was. *)
Theorem merge_bad_input_leaves_world E t c o w :
  (fs w !! t = None \/ exists b, fs w !! t = Some (File (Raw b))) \/
  ((exists T, fs w !! t = Some (File (Docx T))) /\
   (fs w !! c = None \/ exists b, fs w !! c = Some (File (Raw b)))) ->
  exists e, merge_documents_properly E t c o w = (w, inl e).
Proof.
  intros H.
  unfold merge_documents_properly, bind, Document, datetime_now, Composer_save, ret.
  destruct (fault E (IoRead t)); [eauto|].
  destruct H as [[Ht|[b Ht]]|[[T Ht] H]]; rewrite Ht; [eauto|eauto|].
  destruct (fault E (IoRead c)); [eauto|].
  destruct H as [Hc|[b Hc]]; rewrite Hc; eauto.
Qed.

Lemma merge_bad_input_leaves_world_witness :
  ((fs Sample.empty !! "t.docx" = None \/
    exists b, fs Sample.empty !! "t.docx" = Some (File (Raw b))) \/
   ((exists T, fs Sample.empty !! "t.docx" = Some (File (Docx T))) /\
    (fs Sample.empty !! "c.docx" = None \/
     exists b, fs Sample.empty !! "c.docx" = Some (File (Raw b))))) /\
  exists e,
    merge_documents_properly Sample.env "t.docx" "c.docx" "o.docx" Sample.empty =
      (Sample.empty, inl e).
Proof.
  assert ((fs Sample.empty !! "t.docx" = None \/
           exists b, fs Sample.empty !! "t.docx" = Some (File (Raw b))) \/
          ((exists T, fs Sample.empty !! "t.docx" = Some (File (Docx T))) /\
           (fs Sample.empty !! "c.docx" = None \/
            exists b, fs Sample.empty !! "c.docx" = Some (File (Raw b))))) as H
    by (left; left; reflexivity).
  split; [exact H|].
  exact (merge_bad_input_leaves_world Sample.env "t.docx" "c.docx" "o.docx" Sample.empty H).
Defined.

(** ** Well-formed requests *)

Lemma no_temp_dir_wrote w p c dt :
  no_temp_dir w -> no_temp_dir (wrote w p c dt).
Proof.
  intros H t name. cbn [wrote fs].
  split.
  - destruct (decide (p = upload_path t name)) as [->|Hne].
    + by rewrite lookup_insert_eq.
    + rewrite lookup_insert_ne by done. apply H.
  - destruct (decide (p = merged_path t name)) as [->|Hne].
    + by rewrite lookup_insert_eq.
    + rewrite lookup_insert_ne by done. apply H.
Qed.

Lemma no_temp_dir_upload_folder : no_temp_dir Sample.upload_folder_only.
Proof.
  intros t name. unfold Sample.upload_folder_only. cbn [fs].
  rewrite upload_path_explicit, merged_path_explicit. split.
  - rewrite lookup_insert_ne; [by rewrite lookup_empty|].
    intros Heq. repeat (rewrite !app_cons in Heq; injection Heq as Heq). discriminate Heq.
  - rewrite lookup_insert_ne; [by rewrite lookup_empty|].
    intros Heq. repeat (rewrite !app_cons in Heq; injection Heq as Heq). discriminate Heq.
Qed.

Lemma merge_one_run E tp cf s T C :
  no_faults E ->
  allowed_file (filename cf) = true ->
  stream cf = Docx C ->
  no_temp_dir (world s) ->
  let cp := upload_path (clock E (ticks (world s))) (filename cf) in
  let name := out_basename (filename cf) in
  let out := merged_path (clock E (S (ticks (world s)))) name in
  let w2 := wrote (tick (world s)) cp (stream cf) 0 in
  fs w2 !! tp = Some (File (Docx T)) ->
  merge_one E tp cf s =
  (mkLocals (wrote w2 out (Docx (merged_doc T C)) 1) (uploaded_paths s ++ [cp])
     (merged_paths s ++ [mkMergeResult name out]), inr tt).
Proof.
  intros Hnf Hal HC Hd cp name out w2 HT. unfold merge_one. rewrite Hal.
  cbn [negb]. cbv iota. rewrite bind_lift, now_run.
  fold (upload_path (clock E (ticks (world s))) (filename cf)). fold cp.
  rewrite bind_lift. cbn [world uploaded_paths merged_paths]. unfold FileStorage_save.
  rewrite write_file_ok by (try apply Hnf; apply (Hd _ _)). fold w2.
  unfold append_uploaded, append_merged. rewrite bind_modify.
  cbn [world uploaded_paths merged_paths]. fold name. rewrite bind_lift.
  cbn [world uploaded_paths merged_paths].
  rewrite (merge_documents_properly_ok E tp cp name w2 T C); try apply Hnf.
  - reflexivity.
  - exact HT.
  - unfold w2. cbn [wrote fs]. rewrite lookup_insert_eq. by rewrite HC.
  - apply (no_temp_dir_wrote (tick (world s)) cp (stream cf) 0 Hd).
Qed.

Lemma merge_each_runs E tp cfs :
  no_faults E ->
  (exists t n, tp = upload_path t n) ->
  Forall (fun cf => allowed_file (filename cf) = true -> exists C, stream cf = Docx C) cfs ->
  forall s,
    no_temp_dir (world s) ->
    (exists T, fs (world s) !! tp = Some (File (Docx T))) ->
    merged_on_disk (fun _ => True) s ->
    exists s', merge_each E tp cfs s = (s', inr tt) /\ merged_on_disk (fun _ => True) s'.
Proof.
  intros Hnf (t0 & n0 & ->) Hall.
  induction Hall as [|cf cfs Hcf _ IH]; intros s Hd [T HT] Hm; [by exists s|].
  cbn [merge_each]. unfold bind.
  destruct (allowed_file (filename cf)) eqn:Hal.
  2:{ rewrite merge_one_skip by exact Hal. apply IH; eauto. }
  destruct (Hcf eq_refl) as [C HC].
  set (cp := upload_path (clock E (ticks (world s))) (filename cf)).
  set (out := merged_path (clock E (S (ticks (world s)))) (out_basename (filename cf))).
  assert (exists T', fs (wrote (tick (world s)) cp (stream cf) 0) !! upload_path t0 n0 =
                     Some (File (Docx T'))) as [T' HT'].
  { cbn [wrote fs tick]. destruct (decide (cp = upload_path t0 n0)) as [->|Hne].
    - exists C. by rewrite lookup_insert_eq, HC.
    - exists T. by rewrite lookup_insert_ne. }
  rewrite (merge_one_run E _ cf s T' C Hnf Hal HC Hd HT'). fold cp. fold out.
  apply IH.
  - cbn [world]. apply no_temp_dir_wrote, no_temp_dir_wrote. exact Hd.
  - exists T'. cbn [world]. unfold wrote at 1. cbn [fs]. rewrite lookup_insert_ne; [exact HT'|].
    intros Heq. symmetry in Heq. by apply upload_path_not_merged in Heq.
  - apply merged_on_disk_step; [exact Hm|by eexists _, _|by eexists _, _|done].
Qed.

Lemma well_formed_run E files w tf rest T :
  no_faults E ->
  no_temp_dir w ->
  getlist "template" files = tf :: rest ->
  allowed_file (filename tf) = true ->
  stream tf = Docx T ->
  let cfs := getlist "content_files[]" files in
  Forall (fun cf => allowed_file (filename cf) = true -> exists C, stream cf = Docx C) cfs ->
  output_names cfs <> [] ->
  exists docs,
    length docs = length (output_names cfs) /\
    (merge_docx E files w).2 = download (output_names cfs) docs /\
    status_of (merge_docx E files w).2 = 200 /\
    ticks (merge_docx E files w).1 =
      ticks w + 1 +
      2 * length (filter (fun cf => allowed_file (filename cf) = true) cfs).
Proof.
  intros Hnf Hd Hg Hal HT cfs Hall Hne.
  assert (contains "content_files[]" files = true) as Hc.
  { apply contains_getlist. fold cfs. intros Hnil. by rewrite Hnil in Hne. }
  unfold merge_docx. rewrite (merge_docx_try_present E files _ tf rest Hg Hc).
  rewrite (allowed_file_truthy _ Hal), Hal. cbn [negb].
  rewrite save_and_merge_run. cbv zeta. cbn [world uploaded_paths merged_paths app].
  set (tp := upload_path (clock E (ticks w)) (filename tf)).
  rewrite write_file_ok by (try apply Hnf; apply (Hd _ _)). unfold bind. fold cfs.
  destruct (merge_each_runs E tp cfs Hnf ltac:(by eexists _, _) Hall
              (mkLocals (wrote (tick w) tp (stream tf) 0) [tp] []))
    as (s2 & Hrun & Hm).
  - cbn [world]. apply no_temp_dir_wrote. exact Hd.
  - exists T. cbn [world wrote fs]. by rewrite lookup_insert_eq, HT.
  - intros m Hin. by apply elem_of_nil in Hin.
  - rewrite Hrun.
    pose proof (merge_each_names E _ _ _ _ Hrun) as Hnames. cbn [merged_paths map app] in Hnames.
    pose proof (merge_each_ticks E _ _ _ _ Hrun) as Hticks.
    cbn [world wrote ticks tick] in Hticks.
    destruct (merged_on_disk_docs s2 Hm) as [docs Hdocs].
    rewrite (respond_ok E s2 _ Hnf Hdocs). cbn [fst snd world].
    assert (length (merged_paths s2) = length docs) as Hlen.
    { apply Forall2_length in Hdocs. by rewrite length_map in Hdocs. }
    assert (merged_paths s2 <> []) as Hms.
    { intros Hnil. rewrite Hnil in Hnames. by rewrite <- Hnames in Hne. }
    exists docs. rewrite (package_download _ _ Hms Hlen), Hnames.
    split; [by rewrite <- Hnames, length_map|]. split; [reflexivity|]. split.
    + unfold download. by destruct (output_names cfs) as [|? [|]]; destruct docs as [|? [|]].
    + pose proof (cleanup_files_spec E (tracked s2) (world s2)) as Hcl. cbv zeta in Hcl.
      destruct Hcl as (_ & -> & _). fold cfs in Hticks. lia.
Qed.

(** Whatever the clock reads, a well-formed request is answered 200: with
    no I/O error and no directory at a path that the handler builds (the
    upload folder itself may be there), when the template and every
    accepted content file are documents and at least one content file is
    accepted, the response carries one document per accepted file, under
    the output names and in upload order. *)
Theorem well_formed_request_gets_200 E files w tf rest T :
  no_faults E ->
  no_temp_dir w ->
  getlist "template" files = tf :: rest ->
  allowed_file (filename tf) = true ->
  stream tf = Docx T ->
  let cfs := getlist "content_files[]" files in
  Forall (fun cf => allowed_file (filename cf) = true -> exists C, stream cf = Docx C) cfs ->
  output_names cfs <> [] ->
  exists docs,
    length docs = length (output_names cfs) /\
    (merge_docx E files w).2 = download (output_names cfs) docs /\
    status_of (merge_docx E files w).2 = 200.
Proof.
  intros Hnf Hd Hg Hal HT cfs Hall Hne.
  destruct (well_formed_run E files w tf rest T Hnf Hd Hg Hal HT Hall Hne)
    as (docs & Hlen & Hr & Hst & _).
  by exists docs.
Qed.

Lemma well_formed_request_gets_200_witness :
  (no_faults Sample.env_frozen /\ no_temp_dir Sample.upload_folder_only) /\
  exists docs,
    length docs = 1 /\
    (merge_docx Sample.env_frozen Sample.same_names Sample.upload_folder_only).2 =
      download ["a_with_cover.docx"] docs /\
    status_of (merge_docx Sample.env_frozen Sample.same_names Sample.upload_folder_only).2 = 200.
Proof.
  assert (no_faults Sample.env_frozen) as H1 by (intros c; reflexivity).
  pose proof no_temp_dir_upload_folder as H2.
  split; [by split|].
  apply (well_formed_request_gets_200 Sample.env_frozen Sample.same_names
           Sample.upload_folder_only
           (mkFileStorage "a.docx" (Docx Sample.cover)) [] Sample.cover H1 H2);
    try reflexivity.
  - vm_compute. repeat constructor. intros _. by eexists.
  - vm_compute. discriminate.
Defined.

Lemma accepted_are_documents cfs Cs :
  Forall2 (fun cf C => stream cf = Docx C)
    (filter (fun cf => allowed_file (filename cf) = true) cfs) Cs ->
  Forall (fun cf => allowed_file (filename cf) = true -> exists C, stream cf = Docx C) cfs.
Proof.
  revert Cs. induction cfs as [|cf cfs IH]; intros Cs H; [constructor|].
  rewrite filter_cons in H. destruct (decide _) as [Hal|Hal].
  - apply Forall2_cons_inv_l in H as (C & Cs' & HC & H & ->). constructor; eauto.
  - constructor; [done|eauto].
Qed.

(** A well-formed request gets exactly the expected documents: with no
    I/O error, time stamps that all print differently among the readings
    of the request itself (one for the template and two for each accepted
    content file) and no directory at a path that the handler builds, a
    request whose template and accepted content files are all documents is
    answered with the merge of the template with each accepted content
    document, in upload order and under the output names: the document
    itself when one file was accepted, the archive otherwise. *)
Theorem well_formed_request_gets_merges E files w tf rest T Cs :
  no_faults E ->
  distinct_stamps E (ticks w) (ticks w + 1 + 2 * length Cs) ->
  no_temp_dir w ->
  getlist "template" files = tf :: rest ->
  allowed_file (filename tf) = true ->
  stream tf = Docx T ->
  let cfs := getlist "content_files[]" files in
  Forall2 (fun cf C => stream cf = Docx C)
    (filter (fun cf => allowed_file (filename cf) = true) cfs) Cs ->
  Cs <> [] ->
  (merge_docx E files w).2 = download (output_names cfs) (map (merged_doc T) Cs).
Proof.
  intros Hnf Hfresh Hd Hg Hal HT cfs HCs Hne.
  assert (Forall (fun cf => allowed_file (filename cf) = true -> exists C, stream cf = Docx C)
            cfs) as Hall.
  { exact (accepted_are_documents cfs Cs HCs). }
  assert (output_names cfs <> []) as Hnames.
  { unfold output_names. intros Hnil. apply map_eq_nil in Hnil. rewrite Hnil in HCs.
    by apply Forall2_nil_inv_l in HCs. }
  destruct (well_formed_run E files w tf rest T Hnf Hd Hg Hal HT Hall Hnames)
    as (docs & _ & Hr & Hst & Hticks).
  fold cfs in Hticks. rewrite (Forall2_length _ _ _ HCs) in Hticks. rewrite <- Hticks in Hfresh.
  destruct (ok_response_exact E files w _ _ (surjective_pairing _) Hst Hfresh)
    as (tf' & rest' & T' & Cs' & Hg' & HT' & HCs' & _ & ->).
  rewrite Hg in Hg'. injection Hg' as <- <-. rewrite HT in HT'. injection HT' as <-.
  fold cfs in HCs'. do 2 f_equal.
  clear -HCs HCs'. revert Cs' HCs'.
  induction HCs as [|cf C l Cs HC _ IH]; intros Cs' HCs'.
  - by apply Forall2_nil_inv_l in HCs' as ->.
  - apply Forall2_cons_inv_l in HCs' as (C' & Cs'' & HC' & HCs'' & ->).
    rewrite HC in HC'. injection HC' as <-. by rewrite (IH Cs'' HCs'').
Qed.

Lemma well_formed_request_gets_merges_witness :
  (no_faults Sample.env /\
   distinct_stamps Sample.env (ticks Sample.upload_folder_only)
     (ticks Sample.upload_folder_only + 1 + 2 * 2) /\
   no_temp_dir Sample.upload_folder_only) /\
  (merge_docx Sample.env Sample.three_files Sample.upload_folder_only).2 =
    download ["report_with_cover.docx"; "annex.DOCX_with_cover.docx"]
      [merged_doc Sample.cover Sample.report; merged_doc Sample.cover Sample.annex].
Proof.
  assert (no_faults Sample.env) as H1 by (intros c; reflexivity).
  assert (distinct_stamps Sample.env (ticks Sample.upload_folder_only)
            (ticks Sample.upload_folder_only + 1 + 2 * 2)) as H2.
  { intros i j [_ Hi] [_ Hj]. cbn in Hi, Hj.
    do 5 (destruct i as [|i]; [do 5 (destruct j as [|j];
      [first [reflexivity | intros Heq; vm_compute in Heq; discriminate Heq]|]); lia|]).
    lia. }
  pose proof no_temp_dir_upload_folder as H3.
  split; [exact (conj H1 (conj H2 H3))|].
  apply (well_formed_request_gets_merges Sample.env Sample.three_files
           Sample.upload_folder_only
           (mkFileStorage "cover.docx" (Docx Sample.cover)) [] Sample.cover
           [Sample.report; Sample.annex] H1 H2 H3); try reflexivity.
  - vm_compute. by repeat constructor.
  - discriminate.
Defined.

(** ** What the cover break changes *)

(** Lines 127-134 add one page break and nothing else: the break goes
    into a new run at the end of the last top-level paragraph of the
    template, whatever tables follow that paragraph, or, when the template
    has no top-level paragraph, into a new paragraph after everything
    else; the text of the template, its order and its styles, headers and
    footers are as they were, and the number of page breaks grows by
    one. *)
Theorem cover_break_only_adds_a_break (T : document) :
  ((exists pre rs post,
      body T = pre ++ Par rs :: post /\
      Forall (fun b => is_tbl b = true) post /\
      body (add_cover_break T) = pre ++ Par (rs ++ [[Break PAGE]]) :: post) \/
   (Forall (fun b => is_tbl b = true) (body T) /\
    body (add_cover_break T) = body T ++ [Par [[Break PAGE]]])) /\
  base_parts (add_cover_break T) = base_parts T /\
  doc_text (add_cover_break T) = doc_text T /\
  page_breaks (add_cover_break T) = page_breaks T + 1.
Proof.
  split; [|split; [apply add_cover_break_parts|split;
                   [apply doc_text_cover|apply page_breaks_cover]]].
  destruct (body_split (body T)) as [(pre & rs & post & Hb & Hpost)|Hall].
  - left. exists pre, rs, post. split; [exact Hb|]. split; [exact Hpost|].
    by rewrite (add_cover_break_last T pre rs post Hb Hpost).
  - right. split; [exact Hall|].
    rewrite add_cover_break_none; [done|]. by apply par_positions_tables.
Qed.
